(** * Verification of the trading-bot core: snapshot derivations, cache
      fallback, broadcast with pruning, per-pair failure isolation and the
      mock bot registry.

    The development is a shallow embedding of the Python sources
    [src/market_data.py], [src/bot_manager.py], [src/websocket_manager.py]
    and [main.py].

    Modelling conventions.
    - Python [float] values are modelled as exact rationals [Q]; overflow,
      NaN and the rounding error of binary64 arithmetic are outside the
      model.  Comparisons of the source ([>], [<], [==]) are the decidable
      comparisons of [Q].  A value that sits exactly on a threshold or on a
      rounding tie in the model may fall on either side in binary64, so
      the statements below leave such values open: they bound a rounded
      value instead of fixing it, and compare against thresholds with a
      margin.
    - A Python exception is a value [Raise e] of the type [result]; a
      [try: ... except Exception] block is the combinator [try_exceptM].
    - Dictionaries are [gmap]s, sets are [gset]s; the order in which
      Python iterates a set is unspecified, so it is an input of the model.
    - Calls to the exchange client, the analysis collaborator, the clock
      and the client sockets are inputs of the model; coroutines are run
      one at a time, from one suspension to the next. *)

From Stdlib Require Import QArith Qround Qabs Lqa.
From stdpp Require Import gmap strings list.

(** ** Exceptions and results *)

Inductive exn : Type :=
  | KeyError
  | IndexError
  | ZeroDivisionError
  | AttributeError
  | NotImplementedError
  | TypeError
  | ExternalError (msg : string).

Inductive result (A : Type) : Type :=
  | Ok (a : A)
  | Raise (e : exn).
Arguments Ok {A} a.
Arguments Raise {A} e.

#[global] Instance result_ret : MRet result := @Ok.
#[global] Instance result_bind : MBind result :=
  fun A B f r => match r with Ok a => f a | Raise e => Raise e end.

Definition is_ok {A} (r : result A) : bool :=
  match r with Ok _ => true | Raise _ => false end.

(** [str(e)]. *)
Definition exn_str (e : exn) : string :=
  match e with
  | KeyError => "KeyError"
  | IndexError => "list index out of range"
  | ZeroDivisionError => "float division by zero"
  | AttributeError => "'NoneType' object has no attribute 'get'"
  | NotImplementedError => ""
  | TypeError => "'>' not supported"
  | ExternalError msg => msg
  end.

(** ** Stateful code that may raise

    A method of an object with fields [S] is a function from the fields
    before the call to the outcome and the fields after it.  A raised
    exception keeps the writes made before it, as in Python. *)

Definition M (S A : Type) : Type := S -> result A * S.

#[global] Instance M_ret {S} : MRet (M S) := fun A a s => (Ok a, s).
#[global] Instance M_bind {S} : MBind (M S) :=
  fun A B f m s =>
    match m s with
    | (Ok a, s') => f a s'
    | (Raise e, s') => (Raise e, s')
    end.

Definition lift {S A} (r : result A) : M S A := fun s => (r, s).
Definition get_state {S} : M S S := fun s => (Ok s, s).
Definition modify {S} (f : S -> S) : M S unit := fun s => (Ok tt, f s).

(** [try: body  except Exception as e: handler e] on stateful code. *)
Definition try_exceptM {S A} (body : M S A) (handler : exn -> M S A) : M S A :=
  fun s =>
    match body s with
    | (Ok a, s') => (Ok a, s')
    | (Raise e, s') => handler e s'
    end.

(** [for x in l: body x]. *)
Fixpoint for_each {S A} (l : list A) (body : A -> M S unit) : M S unit :=
  match l with
  | [] => mret tt
  | x :: rest => body x ≫= fun _ => for_each rest body
  end.

(** Run a method of a component [T] stored in a field of [S]. *)
Definition zoom {S T A} (proj : S -> T) (upd : T -> S -> S) (m : M T A) : M S A :=
  fun s => let '(r, t) := m (proj s) in (r, upd t s).

(** ** Python list and number primitives *)

Module Py.
Local Open Scope Q_scope.

(** [l[-n:]] for a non-negative [n]: the last [n] elements, the whole list
    when [n] is [0] (since [-0 = 0]) or exceeds the length. *)
Definition last_n {A} (n : nat) (l : list A) : list A :=
  if Nat.eqb n 0 then l else skipn (length l - n) l.

(** [l[0]] and [l[-1]], raising [IndexError] on the empty list. *)
Definition first_item {A} (l : list A) : result A :=
  match l with
  | x :: _ => Ok x
  | [] => Raise IndexError
  end.

Definition last_item {A} (l : list A) : result A :=
  match last l with
  | Some x => Ok x
  | None => Raise IndexError
  end.

(** [sum(l)], which starts from [0] and adds from the left. *)
Definition sum (l : list Q) : Q := fold_left Qplus l 0.

Definition of_nat (n : nat) : Q := inject_Z (Z.of_nat n).

(** [a / b] on floats raises [ZeroDivisionError] when [b] is zero. *)
Definition fdiv (a b : Q) : result Q :=
  if Qeq_bool b 0 then Raise ZeroDivisionError else Ok (a / b).

Definition gt (a b : Q) : bool := negb (Qle_bool a b).
Definition lt (a b : Q) : bool := negb (Qle_bool b a).

(** Rounding of a rational to the nearest integer, ties to the even one. *)
Definition round_half_even (x : Q) : Z :=
  let f := Qfloor x in
  let r := x - inject_Z f in
  if lt r (1 # 2) then f
  else if gt r (1 # 2) then (f + 1)%Z
  else if Z.even f then f else (f + 1)%Z.

(** [round(x, 2)], on the exact rational: the result is within half a
    hundredth of [x].  A binary64 value next to a tie may round to the
    other hundredth than the exact one does. *)
Definition round2 (x : Q) : Q := inject_Z (round_half_even (x * 100)) / 100.

(** [d[key]] on a dictionary. *)
Definition getitem {V} (d : gmap string V) (key : string) : result V :=
  match d !! key with
  | Some v => Ok v
  | None => Raise KeyError
  end.

End Py.

(** ** [src/market_data.py] *)

Module MarketDataManager.
Local Open Scope Q_scope.

(** A candle as the exchange returns it: a row of fields, the close at
    index 4. *)
Definition kline : Type := list Q.

(** [float(k[4])], the field taken as the number it denotes; the
    conversion of a decimal string to binary64 is not modelled. *)
Definition close_of (k : kline) : result Q :=
  match nth_error k 4 with
  | Some c => Ok c
  | None => Raise IndexError
  end.

(** [[float(k[4]) for k in klines]]. *)
Fixpoint closes_of (klines : list kline) : result (list Q) :=
  match klines with
  | [] => Ok []
  | k :: rest =>
      c ← close_of k;
      cs ← closes_of rest;
      Ok (c :: cs)
  end.

Inductive Trend : Type := neutral | bullish | bearish.

Record Indicators : Type := mkIndicators {
  sma_20 : Q;
  rsi_14 : Q;
  price_vs_sma : Q
}.

Definition _calculate_trend (klines : list kline) : result Trend :=
  if (length klines <? 2)%nat then Ok neutral
  else
    recent_closes ← closes_of (Py.last_n 6 klines);
    first_price ← Py.first_item recent_closes;
    last_price ← Py.last_item recent_closes;
    q ← Py.fdiv (last_price - first_price) first_price;
    let price_change := q * 100 in
    if Py.gt price_change 1 then Ok bullish
    else if Py.lt price_change (-1) then Ok bearish
    else Ok neutral.

(** [[abs((p[i] - p[i-1]) / p[i-1] * 100) for i in range(1, len(p))]]. *)
Fixpoint abs_pct_changes (p : list Q) : result (list Q) :=
  match p with
  | a :: (b :: _) as tl =>
      q ← Py.fdiv (b - a) a;
      rest ← abs_pct_changes tl;
      Ok (Qabs (q * 100) :: rest)
  | _ => Ok []
  end.

Definition _calculate_volatility (klines : list kline) : result Q :=
  if (length klines <? 2)%nat then Ok 0
  else
    recent_prices ← closes_of (Py.last_n 12 klines);
    price_changes ← abs_pct_changes recent_prices;
    Py.fdiv (Py.sum price_changes) (Py.of_nat (length price_changes)).

Definition _calculate_sma (prices : list Q) (period : nat) : result Q :=
  if (length prices <? period)%nat then
    Ok (match last prices with Some p => p | None => 0 end)
  else Py.fdiv (Py.sum (Py.last_n period prices)) (Py.of_nat period).

(** [[prices[i] - prices[i-1] for i in range(1, len(prices))]]. *)
Fixpoint deltas_of (prices : list Q) : list Q :=
  match prices with
  | a :: (b :: _) as tl => (b - a) :: deltas_of tl
  | _ => []
  end.

Definition gain (d : Q) : Q := if Py.gt d 0 then d else 0.
Definition loss (d : Q) : Q := if Py.lt d 0 then - d else 0.

Definition _calculate_rsi (prices : list Q) (period : nat) : result Q :=
  if (length prices <? period + 1)%nat then Ok 50
  else
    let deltas := deltas_of prices in
    let gains := map gain deltas in
    let losses := map loss deltas in
    avg_gain ← Py.fdiv (Py.sum (Py.last_n period gains)) (Py.of_nat period);
    avg_loss ← Py.fdiv (Py.sum (Py.last_n period losses)) (Py.of_nat period);
    if Qeq_bool avg_loss 0 then Ok 100
    else
      rs ← Py.fdiv avg_gain avg_loss;
      q ← Py.fdiv 100 (1 + rs);
      let rsi := 100 - q in
      Ok (Py.round2 rsi).

Definition default_indicators : Indicators :=
  {| sma_20 := 0; rsi_14 := 50; price_vs_sma := 0 |}.

Definition _calculate_indicators (klines : list kline) : result Indicators :=
  if (length klines <? 14)%nat then Ok default_indicators
  else
    closes ← closes_of klines;
    sma ← _calculate_sma closes 20;
    rsi ← _calculate_rsi closes 14;
    last_close ← Py.last_item closes;
    sma' ← _calculate_sma closes 20;
    q ← Py.fdiv last_close sma';
    Ok {| sma_20 := sma; rsi_14 := rsi; price_vs_sma := (q - 1) * 100 |}.

(** The exchange client and the clock, as seen during one call. *)
Record DataSource : Type := mkDataSource {
  get_ticker : string -> result (gmap string Q);
  get_klines : string -> result (list kline);
  now : string
}.

Record MarketSnapshot : Type := mkSnapshot {
  symbol : string;
  current_price : Q;
  price_change_24h : Q;
  volume_24h : Q;
  timestamp : string;
  trend : Trend;
  volatility : Q;
  indicators : Indicators;
  high_24h : Q;
  low_24h : Q
}.

(** The body of the [try] block of [get_market_data], up to the cache
    write. *)
Definition fetch_snapshot (src : DataSource) (sym : string) : result MarketSnapshot :=
  ticker ← get_ticker src sym;
  klines ← get_klines src sym;
  price ← Py.getitem ticker "lastPrice";
  change ← Py.getitem ticker "priceChangePercent";
  volume ← Py.getitem ticker "volume";
  tr ← _calculate_trend klines;
  vol ← _calculate_volatility klines;
  ind ← _calculate_indicators klines;
  high ← Py.getitem ticker "highPrice";
  low ← Py.getitem ticker "lowPrice";
  Ok {| symbol := sym; current_price := price; price_change_24h := change;
        volume_24h := volume; timestamp := now src; trend := tr;
        volatility := vol; indicators := ind; high_24h := high; low_24h := low |}.

(** The state of the manager is its [cached_data] dictionary. *)
Definition get_market_data (src : DataSource) (sym : string)
  : M (gmap string MarketSnapshot) (option MarketSnapshot) :=
  try_exceptM
    (market_data ← lift (fetch_snapshot src sym);
     _ ← modify (fun cached_data => <[sym := market_data]> cached_data);
     mret (Some market_data))
    (fun _ => cached_data ← get_state; mret (cached_data !! sym)).

(** The [/api/market-data] endpoint of [main.py]: the snapshot, or the
    error body. *)
Definition api_get_market_data (src : DataSource)
  : M (gmap string MarketSnapshot) (MarketSnapshot + string) :=
  try_exceptM
    (market_data ← get_market_data src "BTCUSDT";
     match market_data with
     | Some md => mret (inl md)
     | None => mret (inr "No market data available")
     end)
    (fun e => mret (inr (exn_str e))).

End MarketDataManager.

(** ** [src/bot_manager.py] *)

Module BotManager.

(** The values a recommendation dictionary holds. *)
Inductive pyval : Type :=
  | PNone
  | PBool (b : bool)
  | PNum (q : Q)
  | PStr (s : string).

(** [d.get(key, default)]. *)
Definition dict_get (d : gmap string pyval) (key : string) (default : pyval) : pyval :=
  match d !! key with
  | Some v => v
  | None => default
  end.

(** Python truthiness. *)
Definition truthy (v : pyval) : bool :=
  match v with
  | PNone => false
  | PBool b => b
  | PNum q => negb (Qeq_bool q 0)
  | PStr s => negb (String.eqb s "")
  end.

Record Bot : Type := mkBot { id : Z; pair : string }.

(** The interface [BaseBotManager]: the [active_bots] field and the three
    methods; [stats_profit] is the lookup [stats.get('profit')] on the
    statistics a variant returns. *)
Class BaseBotManager (S Stats : Type) : Type := {
  active_bots : S -> gmap string Z;
  create_bot : string -> M S (option Bot);
  apply_ai_recommendations : Z -> gmap string pyval -> M S bool;
  get_bot_stats : Z -> M S (option Stats);
  stats_profit : Stats -> option string
}.

(** The base class itself: every method raises [NotImplementedError]. *)
Record BaseState : Type := mkBase { base_active_bots : gmap string Z }.

#[global] Instance base_bot_manager : BaseBotManager BaseState unit := {|
  active_bots := base_active_bots;
  create_bot := fun _ => lift (Raise NotImplementedError);
  apply_ai_recommendations := fun _ _ => lift (Raise NotImplementedError);
  get_bot_stats := fun _ => lift (Raise NotImplementedError);
  stats_profit := fun _ => None
|}.

(** *** [MockBotManager] *)

Record MockTrade : Type := mkTrade {
  timestamp : pyval;
  price : pyval;
  direction : pyval;
  confidence : pyval;
  should_trade : pyval
}.

Record MockStats : Type := mkStats {
  profit : string;
  total_trades : nat;
  last_trade : option MockTrade
}.

Record MockBotManager : Type := mkMock {
  mock_active_bots : gmap string Z;
  mock_trades : gmap Z (list MockTrade);
  next_bot_id : Z
}.

(** [MockBotManager()]. *)
Definition mock_init : MockBotManager :=
  {| mock_active_bots := ∅; mock_trades := ∅; next_bot_id := 1000 |}.

Definition mock_create_bot (p : string) : M MockBotManager (option Bot) :=
  fun st =>
    let bot_id := next_bot_id st in
    (Ok (Some {| id := bot_id; pair := p |}),
     {| mock_active_bots := <[p := bot_id]> (mock_active_bots st);
        mock_trades := mock_trades st;
        next_bot_id := (bot_id + 1)%Z |}).

Definition trade_of (recommendations : gmap string pyval) : MockTrade :=
  {| timestamp := dict_get recommendations "timestamp" PNone;
     price := dict_get recommendations "price" PNone;
     direction := dict_get recommendations "direction" PNone;
     confidence := dict_get recommendations "confidence" PNone;
     should_trade := dict_get recommendations "should_trade" (PBool false) |}.

(** The trade list of a bot, [[]] for an id without an entry. *)
Definition trades_of (st : MockBotManager) (bot_id : Z) : list MockTrade :=
  match mock_trades st !! bot_id with
  | Some trades => trades
  | None => []
  end.

Definition mock_apply_ai_recommendations (bot_id : Z)
    (recommendations : gmap string pyval) : M MockBotManager bool :=
  try_exceptM
    (_ ← modify (fun st =>
           {| mock_active_bots := mock_active_bots st;
              mock_trades :=
                <[bot_id := trades_of st bot_id ++ [trade_of recommendations]]>
                  (mock_trades st);
              next_bot_id := next_bot_id st |});
     mret true)
    (fun _ => mret false).

Definition mock_get_bot_stats (bot_id : Z) : M MockBotManager (option MockStats) :=
  fun st =>
    let trades := trades_of st bot_id in
    (Ok (Some {| profit := "0.00%";
                 total_trades := length trades;
                 last_trade := last trades |}),
     st).

#[global] Instance mock_bot_manager : BaseBotManager MockBotManager MockStats := {|
  active_bots := mock_active_bots;
  create_bot := mock_create_bot;
  apply_ai_recommendations := mock_apply_ai_recommendations;
  get_bot_stats := mock_get_bot_stats;
  stats_profit := fun stats => Some (profit stats)
|}.

(** *** [RealBotManager.apply_ai_recommendations]

    The remote variant of the same method.  [update_bot_settings], which
    the class calls and the source does not define, and
    [Config.MAX_SAFETY_ORDERS] are taken as given. *)

Record BotSettings : Type := mkSettings {
  take_profit : pyval;
  stop_loss_percentage : pyval;
  max_safety_orders : Z
}.

(** [v > 85] on a looked-up value: numbers compare, [True] and [False]
    count as 1 and 0, anything else raises [TypeError]. *)
Definition exceeds_85 (v : pyval) : result bool :=
  match v with
  | PNum q => Ok (Py.gt q 85)
  | PBool _ => Ok false
  | PNone | PStr _ => Raise TypeError
  end.

Section RealBotManager.
Context {R : Type}.
Variable MAX_SAFETY_ORDERS : Z.
Variable update_bot_settings : Z -> BotSettings -> M R bool.

Definition real_apply_ai_recommendations (bot_id : Z)
    (recommendations : gmap string pyval) : M R bool :=
  try_exceptM
    (if negb (truthy (dict_get recommendations "should_trade" (PBool false)))
     then mret false
     else
       let tp := dict_get recommendations "take_profit" PNone in
       let sl := dict_get recommendations "stop_loss" PNone in
       if negb (truthy tp) || negb (truthy sl) then mret false
       else
         confident ← lift (exceeds_85
                             (dict_get recommendations "average_confidence" (PNum 0)));
         success ← update_bot_settings bot_id
                     {| take_profit := tp; stop_loss_percentage := sl;
                        max_safety_orders :=
                          if confident : bool then MAX_SAFETY_ORDERS else 1%Z |};
         mret success)
    (fun _ => mret false).

End RealBotManager.

(** [RealBotManager] calls [self.update_bot_settings] and defines no such
    method, nor does its base class: in the repository the attribute
    lookup raises [AttributeError]. *)
Definition undefined_update_bot_settings {R : Type}
  : Z -> BotSettings -> M R bool :=
  fun _ _ => lift (Raise AttributeError).

(** The method as it runs in the repository. *)
Definition repository_apply_ai_recommendations {R : Type} (MAX_SAFETY_ORDERS : Z)
  : Z -> gmap string pyval -> M R bool :=
  real_apply_ai_recommendations MAX_SAFETY_ORDERS undefined_update_bot_settings.

End BotManager.

(** ** [main.py]: the orchestrator [TradingBot] *)

Module TradingBot.
Import MarketDataManager BotManager.

(** The records the orchestrator sends to its own logger, [logger] of
    [main.py].  What the managers write through the root logger is not
    part of the model. *)
Inductive LogRecord : Type :=
  | WarnNoMarketData (p : string)
  | WarnNoAnalysis (p : string)
  | WarnNoBot (p : string)
  | InfoUpdated (p : string)
  | InfoStatus (p : string) (current_price price_change_24h : Q)
               (bot_profit : string) (average_confidence : pyval)
  | ErrorProcessing (p : string) (e : exn)
  | ErrorLoggingStatus (e : exn)
  | InfoCreatedBot (p : string) (bot_id : Z)
  | ErrorCreateBot (p : string)
  | ErrorSetup (e : exn).

(** What the orchestrator is given: the exchange, the analysis
    collaborator [AIAnalyzer.analyze_market] and [Config.TRADING_PAIRS]. *)
Record Env : Type := mkEnv {
  source : DataSource;
  analyze_market : MarketSnapshot -> result (option (gmap string pyval));
  TRADING_PAIRS : list string
}.

Section Orchestrator.
Context {S Stats : Type} `{!BaseBotManager S Stats}.
Variable env : Env.

Record State : Type := mkState {
  cached_data : gmap string MarketSnapshot;
  bot_manager : S;
  log : list LogRecord
}.

Definition logger (r : LogRecord) : M State unit :=
  modify (fun st => {| cached_data := cached_data st;
                       bot_manager := bot_manager st;
                       log := log st ++ [r] |}).

Definition on_market_data {A} (m : M (gmap string MarketSnapshot) A) : M State A :=
  zoom cached_data
       (fun c st => {| cached_data := c; bot_manager := bot_manager st; log := log st |})
       m.

Definition on_bot_manager {A} (m : M S A) : M State A :=
  zoom bot_manager
       (fun b st => {| cached_data := cached_data st; bot_manager := b; log := log st |})
       m.

(** [self.bot_manager.active_bots.get(pair)] followed by [if bot_id]: an
    absent pair and the id [0] are both falsy. *)
Definition lookup_bot (p : string) : M State (option Z) :=
  st ← get_state;
  match active_bots (bot_manager st) !! p with
  | Some bot_id => if Z.eqb bot_id 0 then mret None else mret (Some bot_id)
  | None => mret None
  end.

Definition log_status (p : string) (market_data : MarketSnapshot)
    (analysis : gmap string pyval) : M State unit :=
  try_exceptM
    (bot ← lookup_bot p;
     match bot with
     | Some bot_id =>
         stats ← on_bot_manager (get_bot_stats bot_id);
         match stats with
         | Some st =>
             logger (InfoStatus p (current_price market_data)
                       (price_change_24h market_data)
                       (match stats_profit st with Some s => s | None => "Unknown" end)
                       (dict_get analysis "average_confidence" (PStr "Unknown")))
         | None => lift (Raise AttributeError)
         end
     | None => mret tt
     end)
    (fun e => logger (ErrorLoggingStatus e)).

(** [if not analysis]: [None] and the empty dictionary are falsy. *)
Definition usable_analysis (analysis : option (gmap string pyval))
  : option (gmap string pyval) :=
  match analysis with
  | Some a => if decide (a = ∅) then None else Some a
  | None => None
  end.

Definition process_trading_pair (p : string) : M State unit :=
  try_exceptM
    (market_data ← on_market_data (get_market_data (source env) p);
     match market_data with
     | None => logger (WarnNoMarketData p)
     | Some md =>
         analysis ← lift (analyze_market env md);
         match usable_analysis analysis with
         | None => logger (WarnNoAnalysis p)
         | Some a =>
             bot ← lookup_bot p;
             match bot with
             | None => logger (WarnNoBot p)
             | Some bot_id =>
                 success ← on_bot_manager (apply_ai_recommendations bot_id a);
                 if success : bool then
                   _ ← logger (InfoUpdated p);
                   log_status p md a
                 else mret tt
             end
         end
     end)
    (fun e => logger (ErrorProcessing p e)).

(** One iteration of the [while] loop of [run], before its sleep. *)
Definition run_pairs (pairs : list string) : M State unit :=
  for_each pairs process_trading_pair.

Definition run_iteration : M State unit := run_pairs (TRADING_PAIRS env).

(** [setup], once the market data service has started and the
    configuration is validated: one bot per pair; a failure is logged and
    raised again. *)
Definition setup_bots : M State unit :=
  try_exceptM
    (for_each (TRADING_PAIRS env)
       (fun p =>
          bot ← on_bot_manager (create_bot p);
          match bot with
          | Some b => logger (InfoCreatedBot p (id b))
          | None => logger (ErrorCreateBot p)
          end))
    (fun e => _ ← logger (ErrorSetup e); lift (Raise e)).

(** The [/api/ai-analysis] endpoint: the analysis, or an error body. *)
Definition api_get_ai_analysis
  : M (gmap string MarketSnapshot) (gmap string pyval + string) :=
  try_exceptM
    (market_data ← get_market_data (source env) "BTCUSDT";
     match market_data with
     | Some md =>
         analysis ← lift (analyze_market env md);
         match usable_analysis analysis with
         | Some a => mret (inl a)
         | None => mret (inr "No analysis available")
         end
     | None => mret (inr "No market data available")
     end)
    (fun e => mret (inr (exn_str e))).

(** The status record emitted for a pair, from its snapshot, its
    recommendation and the statistics of its bot. *)
Definition status_record (p : string) (md : MarketSnapshot)
    (a : gmap string pyval) (stats : Stats) : LogRecord :=
  InfoStatus p (current_price md) (price_change_24h md)
    (match stats_profit stats with Some s => s | None => "Unknown" end)
    (dict_get a "average_confidence" (PStr "Unknown")).

(** All the steps of a pair succeed from the state [st]: a snapshot is
    available, the analysis returns a non-empty recommendation, the pair
    has a bot, the registry applies the recommendation, and the statistics
    of the bot are available afterwards. *)
Definition steps_succeed (p : string) (st : State) (md : MarketSnapshot)
    (a : gmap string pyval) (stats : Stats) : Prop :=
  exists cache' bot_id b1 bot_id' b2,
    get_market_data (source env) p (cached_data st) = (Ok (Some md), cache') /\
    analyze_market env md = Ok (Some a) /\ a <> ∅ /\
    active_bots (bot_manager st) !! p = Some bot_id /\ bot_id <> 0%Z /\
    apply_ai_recommendations bot_id a (bot_manager st) = (Ok true, b1) /\
    active_bots b1 !! p = Some bot_id' /\ bot_id' <> 0%Z /\
    get_bot_stats bot_id' b1 = (Ok (Some stats), b2).

(** A computation only appends to the log. *)
Definition appends_to_log {A} (m : M State A) : Prop :=
  forall st, exists more, log (snd (m st)) = log st ++ more.

End Orchestrator.

Arguments State S : clear implicits.

End TradingBot.

(** ** [src/websocket_manager.py] *)

Module BinanceWebsocketManager.

(** A client socket, by identity. *)
Definition conn : Type := nat.

(** The per-symbol live state, also the broadcast payload.  A key that is
    absent and a key bound to [None] are both [None] here. *)
Record Tick : Type := mkTick {
  symbol : string;
  current_price : option Q;
  price_change_24h : option Q;
  volume_24h : option Q;
  timestamp : option string
}.

(** The only coroutine [start] schedules. *)
Inductive Task : Type := collect_market_data_task.

(** What the manager is given: the exchange client, the clock, the client
    sockets, the registered callables, and the order in which Python
    iterates each of the two sets. *)
Record Env : Type := mkEnv {
  client_create : result unit;
  get_ticker : string -> result (gmap string Q);
  now : string;
  accept : conn -> result unit;
  send_json : conn -> Tick -> result unit;
  callback : nat -> Tick -> result unit;
  conn_iter : gset conn -> list conn;
  symbol_iter : gset string -> list string
}.

(** An iteration order enumerates the set, each member once. *)
Definition iteration_ok (env : Env) : Prop :=
  (forall s, conn_iter env s ≡ₚ elements s) /\
  (forall s, symbol_iter env s ≡ₚ elements s).

(** The fields of the manager; [sent] is the record of what was delivered
    to which socket, oldest first. *)
Record State : Type := mkState {
  active_connections : gset conn;
  market_data : gmap string Tick;
  price_callbacks : list nat;
  is_running : bool;
  binance_client : bool;
  tasks : list Task;
  last_ws_update : gmap string string;
  subscribed_symbols : gset string;
  sent : list (conn * Tick)
}.

(** [BinanceWebsocketManager()]. *)
Definition init : State :=
  {| active_connections := ∅; market_data := ∅; price_callbacks := [];
     is_running := false; binance_client := false; tasks := [];
     last_ws_update := ∅; subscribed_symbols := ∅; sent := [] |}.

Definition set_active_connections (v : gset conn) (st : State) : State :=
  mkState v (market_data st) (price_callbacks st) (is_running st)
    (binance_client st) (tasks st) (last_ws_update st) (subscribed_symbols st)
    (sent st).

Definition set_market_data (v : gmap string Tick) (st : State) : State :=
  mkState (active_connections st) v (price_callbacks st) (is_running st)
    (binance_client st) (tasks st) (last_ws_update st) (subscribed_symbols st)
    (sent st).

Definition set_is_running (v : bool) (st : State) : State :=
  mkState (active_connections st) (market_data st) (price_callbacks st) v
    (binance_client st) (tasks st) (last_ws_update st) (subscribed_symbols st)
    (sent st).

Definition set_binance_client (v : bool) (st : State) : State :=
  mkState (active_connections st) (market_data st) (price_callbacks st)
    (is_running st) v (tasks st) (last_ws_update st) (subscribed_symbols st)
    (sent st).

Definition set_tasks (v : list Task) (st : State) : State :=
  mkState (active_connections st) (market_data st) (price_callbacks st)
    (is_running st) (binance_client st) v (last_ws_update st)
    (subscribed_symbols st) (sent st).

Definition set_last_ws_update (v : gmap string string) (st : State) : State :=
  mkState (active_connections st) (market_data st) (price_callbacks st)
    (is_running st) (binance_client st) (tasks st) v (subscribed_symbols st)
    (sent st).

Definition set_subscribed_symbols (v : gset string) (st : State) : State :=
  mkState (active_connections st) (market_data st) (price_callbacks st)
    (is_running st) (binance_client st) (tasks st) (last_ws_update st) v
    (sent st).

Definition set_sent (v : list (conn * Tick)) (st : State) : State :=
  mkState (active_connections st) (market_data st) (price_callbacks st)
    (is_running st) (binance_client st) (tasks st) (last_ws_update st)
    (subscribed_symbols st) v.

Definition set_price_callbacks (v : list nat) (st : State) : State :=
  mkState (active_connections st) (market_data st) v (is_running st)
    (binance_client st) (tasks st) (last_ws_update st) (subscribed_symbols st)
    (sent st).

(** [l.remove(x)] on a list that contains [x]: the first occurrence goes. *)
Fixpoint remove_first (x : nat) (l : list nat) : list nat :=
  match l with
  | [] => []
  | y :: rest => if Nat.eqb x y then rest else y :: remove_first x rest
  end.

(** A registered callable, by identity. *)
Definition add_price_callback (cb : nat) : M State unit :=
  modify (fun st =>
    if decide (cb ∈ price_callbacks st) then st
    else set_price_callbacks (price_callbacks st ++ [cb]) st).

Definition remove_price_callback (cb : nat) : M State unit :=
  modify (fun st =>
    if decide (cb ∈ price_callbacks st)
    then set_price_callbacks (remove_first cb (price_callbacks st)) st
    else st).

Section Manager.
Variable env : Env.

Definition start : M State unit :=
  st ← get_state;
  if is_running st then mret tt
  else
    try_exceptM
      (_ ← modify (set_is_running true);
       _ ← lift (client_create env);
       _ ← modify (set_binance_client true);
       modify (fun st => set_tasks (tasks st ++ [collect_market_data_task]) st))
      (fun e => _ ← modify (set_is_running false); lift (Raise e)).

Definition subscribe_symbol (sym : string) : M State unit :=
  st ← get_state;
  if decide (sym ∈ subscribed_symbols st) then mret tt
  else
    _ ← modify (fun st => set_subscribed_symbols ({[sym]} ∪ subscribed_symbols st) st);
    modify (fun st =>
      set_market_data
        (<[sym := {| symbol := sym; current_price := None;
                     price_change_24h := None; volume_24h := None;
                     timestamp := None |}]> (market_data st)) st).

Definition subscribe_symbols (symbols : list string) : M State unit :=
  try_exceptM (for_each symbols subscribe_symbol) (fun _ => mret tt).

(** [await connection.send_json(data)]. *)
Definition deliver (connection : conn) (data : Tick) : M State unit :=
  _ ← lift (send_json env connection data);
  modify (fun st => set_sent (sent st ++ [(connection, data)]) st).

(** The [for] loop of [broadcast], with the local set [disconnected]. *)
Fixpoint sweep (order : list conn) (data : Tick) (disconnected : gset conn)
  : M State (gset conn) :=
  match order with
  | [] => mret disconnected
  | connection :: rest =>
      d ← try_exceptM
            (_ ← deliver connection data; mret disconnected)
            (fun _ => mret ({[connection]} ∪ disconnected));
      sweep rest data d
  end.

Definition broadcast (data : Tick) : M State unit :=
  st ← get_state;
  disconnected ← sweep (conn_iter env (active_connections st)) data ∅;
  modify (fun st => set_active_connections (active_connections st ∖ disconnected) st).

(** [connect] up to its receive loop: accept the socket and register it. *)
Definition connect_open (websocket : conn) : M State unit :=
  _ ← lift (accept env websocket);
  modify (fun st => set_active_connections ({[websocket]} ∪ active_connections st) st).

(** [connect] once [receive_text] has raised: both [except] clauses run
    [self.active_connections.remove(websocket)], and [set.remove] raises
    [KeyError] for a missing element. *)
Definition connect_closed (websocket : conn) : M State unit :=
  st ← get_state;
  if decide (websocket ∈ active_connections st) then
    modify (set_active_connections (active_connections st ∖ {[websocket]}))
  else lift (Raise KeyError).

(** The delivery of [data] to a socket succeeds. *)
Definition delivers (data : Tick) (connection : conn) : Prop :=
  is_ok (send_json env connection data) = true.

#[global] Instance delivers_dec data connection : Decision (delivers data connection) :=
  bool_eq_dec (is_ok (send_json env connection data)) true.

(** The callback loop of [_collect_market_data]. *)
Definition notify (data : Tick) : M State unit :=
  st ← get_state;
  for_each (price_callbacks st)
    (fun cb => try_exceptM (lift (callback env cb data)) (fun _ => mret tt)).

(** The body of the [for symbol in self.subscribed_symbols] loop. *)
Definition update_symbol (sym : string) : M State unit :=
  ticker ← lift (get_ticker env sym);
  price ← lift (Py.getitem ticker "lastPrice");
  change ← lift (Py.getitem ticker "priceChangePercent");
  volume ← lift (Py.getitem ticker "volume");
  let data := {| symbol := sym; current_price := Some price;
                 price_change_24h := Some change; volume_24h := Some volume;
                 timestamp := Some (now env) |} in
  _ ← modify (fun st => set_market_data (<[sym := data]> (market_data st)) st);
  _ ← modify (fun st => set_last_ws_update (<[sym := now env]> (last_ws_update st)) st);
  _ ← notify data;
  broadcast data.

(** One iteration of the [while self.is_running] loop of
    [_collect_market_data]; the result is the number of seconds the
    coroutine sleeps before the next one. *)
Definition collect_iteration : M State nat :=
  try_exceptM
    (st ← get_state;
     _ ← for_each (symbol_iter env (subscribed_symbols st)) update_symbol;
     mret 1%nat)
    (fun _ => mret 5%nat).

(** [self.market_data[symbol]['current_price'] = price], guarded by
    [if symbol in self.market_data]. *)
Definition store_price (sym : string) (price : Q) (st : State) : State :=
  match market_data st !! sym with
  | Some entry =>
      set_market_data
        (<[sym := {| symbol := symbol entry; current_price := Some price;
                     price_change_24h := price_change_24h entry;
                     volume_24h := volume_24h entry;
                     timestamp := timestamp entry |}]> (market_data st)) st
  | None => st
  end.

(** The live price of the state, when the symbol has an entry whose
    price is not [None]. *)
Definition live_price (sym : string) (st : State) : option Q :=
  match market_data st !! sym with
  | Some entry => current_price entry
  | None => None
  end.

Definition get_latest_price (sym : string) : M State (option Q) :=
  try_exceptM
    (st ← get_state;
     match live_price sym st with
     | Some price => mret (Some price)
     | None =>
         if binance_client st then
           ticker ← lift (get_ticker env sym);
           price ← lift (Py.getitem ticker "lastPrice");
           _ ← modify (store_price sym price);
           mret (Some price)
         else mret None
     end)
    (fun _ => mret None).

End Manager.

(** [stop].  Closing a client socket and closing the exchange client are
    calls to the outside.  Cancelling the tasks changes no field of the
    manager. *)
Section Shutdown.
Variable env : Env.
Variable close : conn -> result unit.
Variable close_connection : result unit.

Definition stop : M State unit :=
  try_exceptM
    (_ ← modify (set_is_running false);
     st ← get_state;
     _ ← for_each (conn_iter env (active_connections st))
           (fun connection =>
              try_exceptM (lift (close connection)) (fun _ => mret tt));
     _ ← (if binance_client st then lift close_connection else mret tt);
     _ ← modify (set_tasks []);
     modify (set_active_connections ∅))
    (fun e => lift (Raise e)).

End Shutdown.

End BinanceWebsocketManager.

(** ** The derivations in the words of the specification

    These definitions follow the specification text, not the source; the
    theorems below compare them with the functions of [MarketDataManager]. *)

Module Spec.
Import MarketDataManager.
Local Open Scope Q_scope.

(** The arithmetic mean of a list. *)
Definition mean (l : list Q) : Q := Py.sum l / Py.of_nat (length l).

(** "sma_20 = mean of last 20 closes (or all available if fewer than 20)". *)
Definition sma_20 (closes : list Q) : Q := mean (Py.last_n 20 closes).

(** The average gain and the average loss over the last 14 deltas. *)
Definition avg_gain_14 (closes : list Q) : Q :=
  Py.sum (Py.last_n 14 (map gain (deltas_of closes))) / 14.

Definition avg_loss_14 (closes : list Q) : Q :=
  Py.sum (Py.last_n 14 (map loss (deltas_of closes))) / 14.

(** "rsi_14 = classic Wilder-style average-gain/average-loss ratio over the
    last 14 deltas, with avg_loss==0 forced to RSI=100.0 exactly, rounded
    to 2 decimals". *)
Definition rsi_14 (closes : list Q) : Q :=
  if Qeq_bool (avg_loss_14 closes) 0 then 100
  else Py.round2 (100 - 100 / (1 + avg_gain_14 closes / avg_loss_14 closes)).


End Spec.

(** ** Concrete inputs used by the examples *)

Module Examples.
Import MarketDataManager.
Local Open Scope Q_scope.

(** A candle row: open time, open, high, low, close, volume. *)
Definition candle (close : Q) : kline := [0; close; close; close; close; 0].

(** The closes [1, 2, ..., n]. *)
Definition rising (n : nat) : list Q :=
  map (fun i => inject_Z (Z.of_nat i)) (seq 1 n).

(** Thirteen closes at [100] followed by one at [114]. *)
Definition step_closes : list Q := repeat 100 13 ++ [114].

(** An exchange whose every call raises. *)
Definition exchange_down : DataSource :=
  {| get_ticker := fun _ => Raise (ExternalError "timeout");
     get_klines := fun _ => Raise (ExternalError "timeout");
     now := "2024-01-01T00:00:00" |}.

Definition old_snapshot : MarketSnapshot :=
  {| symbol := "BTCUSDT"; current_price := 42000; price_change_24h := 1 # 2;
     volume_24h := 1000; timestamp := "2023-12-31T23:59:00"; trend := neutral;
     volatility := 0; indicators := default_indicators;
     high_24h := 42500; low_24h := 41000 |}.

(** A recommendation that advises against trading. *)
Definition hold_recommendation : gmap string BotManager.pyval :=
  {[ "should_trade" := BotManager.PBool false;
     "direction" := BotManager.PStr "hold";
     "price" := BotManager.PNum 42000;
     "confidence" := BotManager.PNum 40 ]}.

(** An exchange that answers for ETHUSDT only. *)
Definition sample_ticker : gmap string Q :=
  {[ "lastPrice" := 16; "priceChangePercent" := 2; "volume" := 1000;
     "highPrice" := 17; "lowPrice" := 1 ]}.

Definition eth_only_exchange : DataSource :=
  {| get_ticker := fun sym =>
       if String.eqb sym "ETHUSDT" then Ok sample_ticker
       else Raise (ExternalError "timeout");
     get_klines := fun _ => Ok (map candle (rising 16));
     now := "2024-01-01T00:00:00" |}.

(** The snapshot that exchange yields for ETHUSDT. *)
Definition eth_snapshot : MarketSnapshot := Eval vm_compute in
  match fetch_snapshot eth_only_exchange "ETHUSDT" with
  | Ok md => md
  | Raise _ => old_snapshot
  end.

Definition buy_recommendation : gmap string BotManager.pyval :=
  {[ "should_trade" := BotManager.PBool true;
     "direction" := BotManager.PStr "buy";
     "average_confidence" := BotManager.PNum 90 ]}.

(** The orchestrator over two pairs, the first of which cannot be
    fetched, with the mock registry after [setup]. *)
Definition two_pairs : TradingBot.Env :=
  {| TradingBot.source := eth_only_exchange;
     TradingBot.analyze_market := fun _ => Ok (Some buy_recommendation);
     TradingBot.TRADING_PAIRS := ["BTCUSDT"; "ETHUSDT"] |}.

Definition after_setup : TradingBot.State BotManager.MockBotManager :=
  snd (TradingBot.setup_bots two_pairs
         {| TradingBot.cached_data := ∅;
            TradingBot.bot_manager := BotManager.mock_init;
            TradingBot.log := [] |}).

(** The same orchestrator over the abstract base registry, whose methods
    are not implemented. *)
Definition with_base_registry : TradingBot.State BotManager.BaseState :=
  {| TradingBot.cached_data := ∅;
     TradingBot.bot_manager :=
       {| BotManager.base_active_bots := {[ "BTCUSDT" := 1%Z; "ETHUSDT" := 2%Z ]} |};
     TradingBot.log := [] |}.

Definition eth_stats : BotManager.MockStats :=
  {| BotManager.profit := "0.00%"; BotManager.total_trades := 1;
     BotManager.last_trade := Some (BotManager.trade_of buy_recommendation) |}.

(** The payload of a broadcast. *)
Definition btc_tick : BinanceWebsocketManager.Tick :=
  {| BinanceWebsocketManager.symbol := "BTCUSDT";
     BinanceWebsocketManager.current_price := Some 42000;
     BinanceWebsocketManager.price_change_24h := Some (1 # 2);
     BinanceWebsocketManager.volume_24h := Some 1000;
     BinanceWebsocketManager.timestamp := Some "2024-01-01T00:00:00" |}.

(** A streaming environment in which the socket [2] is dead and the
    exchange answers for BTCUSDT only; sets are iterated in the order of
    [elements], which puts ETHUSDT before BTCUSDT. *)
Definition flaky : BinanceWebsocketManager.Env :=
  {| BinanceWebsocketManager.client_create := Ok tt;
     BinanceWebsocketManager.get_ticker := fun sym =>
       if String.eqb sym "BTCUSDT" then Ok sample_ticker
       else Raise (ExternalError "timeout");
     BinanceWebsocketManager.now := "2024-01-01T00:00:00";
     BinanceWebsocketManager.accept := fun _ => Ok tt;
     BinanceWebsocketManager.send_json := fun c _ =>
       if Nat.eqb c 2 then Raise (ExternalError "connection closed") else Ok tt;
     BinanceWebsocketManager.callback := fun _ _ => Ok tt;
     BinanceWebsocketManager.conn_iter := elements;
     BinanceWebsocketManager.symbol_iter := elements |}.

(** The manager after [subscribe_symbols], [start] and one accepted
    socket. *)
Definition streaming : BinanceWebsocketManager.State :=
  snd (BinanceWebsocketManager.connect_open flaky 1%nat
    (snd (BinanceWebsocketManager.start flaky
      (snd (BinanceWebsocketManager.subscribe_symbols ["BTCUSDT"; "ETHUSDT"]
              BinanceWebsocketManager.init))))).

(** The manager with three accepted sockets. *)
Definition three_clients : BinanceWebsocketManager.State :=
  BinanceWebsocketManager.set_active_connections {[ 1%nat; 2%nat; 3%nat ]}
    BinanceWebsocketManager.init.

End Examples.

(** ** The tick a symbol gets from the exchange *)

Module Streaming.
Import BinanceWebsocketManager.

(** The live state [_collect_market_data] builds for a symbol from its
    ticker, when the ticker is fetched and has the three fields read. *)
Definition fresh_tick (env : Env) (sym : string) : option Tick :=
  match get_ticker env sym with
  | Ok ticker =>
      match ticker !! "lastPrice", ticker !! "priceChangePercent", ticker !! "volume" with
      | Some price, Some change, Some volume =>
          Some {| symbol := sym; current_price := Some price;
                  price_change_24h := Some change; volume_24h := Some volume;
                  timestamp := Some (now env) |}
      | _, _, _ => None
      end
  | Raise _ => None
  end.

(** The entry [subscribe_symbols] creates for a new symbol. *)
Definition placeholder (sym : string) : Tick :=
  {| symbol := sym; current_price := None; price_change_24h := None;
     volume_24h := None; timestamp := None |}.

End Streaming.

(** ** Further concrete inputs *)

Module MoreExamples.
Import MarketDataManager.
Local Open Scope Q_scope.


(** An exchange that answers every symbol with sixteen rising candles. *)
Definition healthy_exchange : DataSource :=
  {| get_ticker := fun _ => Ok Examples.sample_ticker;
     get_klines := fun _ => Ok (map Examples.candle (Examples.rising 16));
     now := "2024-01-01T00:00:00" |}.


(** The closes [n, n-1, ..., 1]. *)
Definition falling (n : nat) : list Q := rev (Examples.rising n).

(** A complete recommendation to trade, with a confidence of exactly 85. *)
Definition trade_recommendation : gmap string BotManager.pyval :=
  {[ "should_trade" := BotManager.PBool true;
     "take_profit" := BotManager.PNum 2;
     "stop_loss" := BotManager.PNum 1;
     "average_confidence" := BotManager.PNum 85 ]}.

(** The same without a take-profit level. *)
Definition no_take_profit : gmap string BotManager.pyval :=
  {[ "should_trade" := BotManager.PBool true;
     "stop_loss" := BotManager.PNum 1 ]}.

(** The same with a confidence that is not a number. *)
Definition textual_confidence : gmap string BotManager.pyval :=
  {[ "should_trade" := BotManager.PBool true;
     "take_profit" := BotManager.PNum 2;
     "stop_loss" := BotManager.PNum 1;
     "average_confidence" := BotManager.PStr "high" ]}.

(** A backend that records the settings it is sent and accepts them. *)
Definition recording_backend (bot_id : Z) (settings : BotManager.BotSettings)
  : M (list (Z * BotManager.BotSettings)) bool :=
  fun calls => (Ok true, calls ++ [(bot_id, settings)]).

(** The orchestrator over a healthy exchange, with an analysis
    collaborator that raises. *)
Definition failing_analyzer : TradingBot.Env :=
  {| TradingBot.source := healthy_exchange;
     TradingBot.analyze_market := fun _ => Raise (ExternalError "rate limit");
     TradingBot.TRADING_PAIRS := ["BTCUSDT"; "ETHUSDT"] |}.

(** The same with an analysis collaborator that advises to trade. *)
Definition trading : TradingBot.Env :=
  {| TradingBot.source := healthy_exchange;
     TradingBot.analyze_market := fun _ => Ok (Some trade_recommendation);
     TradingBot.TRADING_PAIRS := ["BTCUSDT"; "ETHUSDT"] |}.

(** The snapshot the healthy exchange yields for BTCUSDT. *)
Definition btc_snapshot : MarketSnapshot := Eval vm_compute in
  match fetch_snapshot healthy_exchange "BTCUSDT" with
  | Ok md => md
  | Raise _ => Examples.old_snapshot
  end.

(** A fresh orchestrator state over the mock registry. *)
Definition fresh_mock : TradingBot.State BotManager.MockBotManager :=
  {| TradingBot.cached_data := ∅;
     TradingBot.bot_manager := BotManager.mock_init;
     TradingBot.log := [] |}.

(** A remote registry reduced to what the orchestrator uses: it holds the
    bots and declines every recommendation. *)
Definition declining_registry : BotManager.BaseBotManager (gmap string Z) unit :=
  {| BotManager.active_bots := fun bots => bots;
     BotManager.create_bot := fun _ => mret None;
     BotManager.apply_ai_recommendations := fun _ _ => mret false;
     BotManager.get_bot_stats := fun _ => mret None;
     BotManager.stats_profit := fun _ => None |}.

Definition declining_state : TradingBot.State (gmap string Z) :=
  {| TradingBot.cached_data := ∅;
     TradingBot.bot_manager := {[ "BTCUSDT" := 7%Z ]};
     TradingBot.log := [] |}.

(** A streaming environment in which everything works. *)
Definition steady : BinanceWebsocketManager.Env :=
  {| BinanceWebsocketManager.client_create := Ok tt;
     BinanceWebsocketManager.get_ticker := fun _ => Ok Examples.sample_ticker;
     BinanceWebsocketManager.now := "2024-01-01T00:00:00";
     BinanceWebsocketManager.accept := fun _ => Ok tt;
     BinanceWebsocketManager.send_json := fun _ _ => Ok tt;
     BinanceWebsocketManager.callback := fun _ _ => Raise (ExternalError "callback");
     BinanceWebsocketManager.conn_iter := elements;
     BinanceWebsocketManager.symbol_iter := elements |}.

(** A streaming environment whose exchange client cannot be created. *)
Definition no_client : BinanceWebsocketManager.Env :=
  {| BinanceWebsocketManager.client_create := Raise (ExternalError "no network");
     BinanceWebsocketManager.get_ticker := fun _ => Raise (ExternalError "no network");
     BinanceWebsocketManager.now := "2024-01-01T00:00:00";
     BinanceWebsocketManager.accept := fun _ => Raise (ExternalError "handshake");
     BinanceWebsocketManager.send_json := fun _ _ => Ok tt;
     BinanceWebsocketManager.callback := fun _ _ => Ok tt;
     BinanceWebsocketManager.conn_iter := elements;
     BinanceWebsocketManager.symbol_iter := elements |}.

End MoreExamples.

(** * Proofs *)

#[local] Set Warnings "-clear-no-such-hyp".

(** ** Numbers and lists *)

Section PyFacts.
Local Open Scope Q_scope.

Lemma fdiv_ok (a b : Q) : ~ b == 0 -> Py.fdiv a b = Ok (a / b).
Proof.
  intros Hb. unfold Py.fdiv.
  destruct (Qeq_bool b 0) eqn:E; [|reflexivity].
  apply Qeq_bool_eq in E. contradiction.
Qed.

Lemma fold_left_Qplus_ge (l : list Q) (acc : Q) :
  Forall (fun x => 0 <= x) l -> acc <= fold_left Qplus l acc.
Proof.
  revert acc. induction l as [|x l IH]; intros acc Hl; simpl.
  - apply Qle_refl.
  - inversion Hl as [|? ? Hx Hl']; subst.
    apply Qle_trans with (acc + x); [lra | now apply IH].
Qed.

Lemma sum_nonneg (l : list Q) : Forall (fun x => 0 <= x) l -> 0 <= Py.sum l.
Proof. intros Hl. now apply fold_left_Qplus_ge. Qed.

Lemma Forall_last_n {A} (P : A -> Prop) (n : nat) (l : list A) :
  Forall P l -> Forall P (Py.last_n n l).
Proof.
  intros Hl. unfold Py.last_n. destruct (Nat.eqb n 0); [assumption|].
  now apply Forall_drop.
Qed.

Lemma length_last_n {A} (n : nat) (l : list A) :
  (n <= length l)%nat -> (0 < n)%nat -> length (Py.last_n n l) = n.
Proof.
  intros Hn Hpos. unfold Py.last_n.
  destruct (Nat.eqb_spec n 0) as [->|_]; [lia|].
  rewrite length_skipn. lia.
Qed.

Lemma last_n_all {A} (n : nat) (l : list A) :
  (length l <= n)%nat -> Py.last_n n l = l.
Proof.
  intros Hn. unfold Py.last_n. destruct (Nat.eqb n 0); [reflexivity|].
  replace (length l - n)%nat with 0%nat by lia. reflexivity.
Qed.

Lemma gt_spec (a b : Q) : Py.gt a b = true <-> b < a.
Proof.
  unfold Py.gt. rewrite negb_true_iff. split.
  - intros E. apply Qnot_le_lt. intros H. apply Qle_bool_iff in H. congruence.
  - intros H. destruct (Qle_bool a b) eqn:E; [|reflexivity].
    apply Qle_bool_iff in E. lra.
Qed.

Lemma lt_spec (a b : Q) : Py.lt a b = true <-> a < b.
Proof. unfold Py.lt. apply (gt_spec b a). Qed.

(** Rounding to the nearest integer stays between integer bounds. *)
Lemma round_half_even_bounds (x : Q) (lo hi : Z) :
  inject_Z lo <= x -> x <= inject_Z hi ->
  (lo <= Py.round_half_even x <= hi)%Z.
Proof.
  intros Hlo Hhi.
  assert (Hf1 : (lo <= Qfloor x)%Z).
  { rewrite <- (Qfloor_Z lo). now apply Qfloor_resp_le. }
  assert (Hf2 : (Qfloor x <= hi)%Z).
  { rewrite <- (Qfloor_Z hi). now apply Qfloor_resp_le. }
  assert (Hstep : Py.lt (x - inject_Z (Qfloor x)) (1 # 2) = false ->
                  (Qfloor x + 1 <= hi)%Z).
  { intros E. destruct (Z.eq_dec (Qfloor x) hi) as [Heq|Hne]; [|lia].
    exfalso. assert (Hlt : x - inject_Z (Qfloor x) < 1 # 2).
    { rewrite Heq. lra. }
    apply lt_spec in Hlt. congruence. }
  unfold Py.round_half_even.
  destruct (Py.lt (x - inject_Z (Qfloor x)) (1 # 2)) eqn:E1; [lia|].
  specialize (Hstep eq_refl).
  destruct (Py.gt _ _); [lia|]. destruct (Z.even _); lia.
Qed.

Lemma round2_bounds (x : Q) : 0 <= x -> x <= 100 -> 0 <= Py.round2 x /\ Py.round2 x <= 100.
Proof.
  intros H0 H100. unfold Py.round2.
  destruct (round_half_even_bounds (x * 100) 0 10000) as [Hlo Hhi].
  - change (inject_Z 0) with 0. lra.
  - change (inject_Z 10000) with 10000. lra.
  - split.
    + apply Qle_shift_div_l; [reflexivity|].
      rewrite Qmult_0_l. change 0 with (inject_Z 0). now rewrite <- Zle_Qle.
    + apply Qle_shift_div_r; [reflexivity|].
      change (100 * 100) with (inject_Z 10000). now rewrite <- Zle_Qle.
Qed.



End PyFacts.

(** ** [market_data.py]: the derivations *)

Module MarketDataFacts.
Import MarketDataManager.
Local Open Scope Q_scope.

Lemma gain_nonneg (d : Q) : 0 <= gain d.
Proof.
  unfold gain. destruct (Py.gt d 0) eqn:E; [|apply Qle_refl].
  apply gt_spec in E. lra.
Qed.

Lemma loss_nonneg (d : Q) : 0 <= loss d.
Proof.
  unfold loss. destruct (Py.lt d 0) eqn:E; [|apply Qle_refl].
  apply lt_spec in E. lra.
Qed.

Lemma avg_gain_14_nonneg (closes : list Q) : 0 <= Spec.avg_gain_14 closes.
Proof.
  unfold Spec.avg_gain_14. apply Qle_shift_div_l; [reflexivity|].
  rewrite Qmult_0_l. apply sum_nonneg, Forall_last_n.
  apply List.Forall_forall. intros x Hx. apply in_map_iff in Hx as (d & <- & _).
  apply gain_nonneg.
Qed.

Lemma avg_loss_14_nonneg (closes : list Q) : 0 <= Spec.avg_loss_14 closes.
Proof.
  unfold Spec.avg_loss_14. apply Qle_shift_div_l; [reflexivity|].
  rewrite Qmult_0_l. apply sum_nonneg, Forall_last_n.
  apply List.Forall_forall. intros x Hx. apply in_map_iff in Hx as (d & <- & _).
  apply loss_nonneg.
Qed.

(** The relative strength is never negative, so [1 + rs] is at least [1]. *)
Lemma rs_nonneg (closes : list Q) :
  ~ Spec.avg_loss_14 closes == 0 ->
  0 <= Spec.avg_gain_14 closes / Spec.avg_loss_14 closes.
Proof.
  intros Hne. pose proof (avg_loss_14_nonneg closes) as Hl.
  pose proof (avg_gain_14_nonneg closes) as Hg.
  apply Qle_shift_div_l; [|lra].
  destruct (Qlt_le_dec 0 (Spec.avg_loss_14 closes)) as [H|H]; [assumption|].
  exfalso. apply Hne. lra.
Qed.

(** Below [period + 1] prices the source answers the neutral [50.0]. *)
Lemma _calculate_rsi_short (prices : list Q) :
  (length prices < 15)%nat -> _calculate_rsi prices 14 = Ok 50.
Proof.
  intros Hlen. unfold _calculate_rsi.
  destruct (Nat.ltb_spec (length prices) (14 + 1)) as [_|H]; [reflexivity|lia].
Qed.

(** From [period + 1] prices on, the source computes the ratio the
    specification describes, and no division in it fails. *)
Lemma _calculate_rsi_computed (prices : list Q) :
  (15 <= length prices)%nat -> _calculate_rsi prices 14 = Ok (Spec.rsi_14 prices).
Proof.
  intros Hlen. unfold _calculate_rsi.
  destruct (Nat.ltb_spec (length prices) (14 + 1)) as [H|_]; [lia|].
  cbv zeta.
  rewrite !fdiv_ok by (intros H; discriminate H).
  cbn [mbind result_bind].
  change (Py.sum (Py.last_n 14 (map gain (deltas_of prices))) / Py.of_nat 14)
    with (Spec.avg_gain_14 prices).
  change (Py.sum (Py.last_n 14 (map loss (deltas_of prices))) / Py.of_nat 14)
    with (Spec.avg_loss_14 prices).
  unfold Spec.rsi_14.
  destruct (Qeq_bool (Spec.avg_loss_14 prices) 0) eqn:E; [reflexivity|].
  apply Qeq_bool_neq in E.
  rewrite (fdiv_ok _ _ E). cbn [mbind result_bind].
  pose proof (rs_nonneg prices E) as Hrs.
  rewrite fdiv_ok by lra. reflexivity.
Qed.

Lemma rsi_14_range (closes : list Q) :
  0 <= Spec.rsi_14 closes /\ Spec.rsi_14 closes <= 100.
Proof.
  unfold Spec.rsi_14.
  destruct (Qeq_bool (Spec.avg_loss_14 closes) 0) eqn:E.
  - split; [discriminate | apply Qle_refl].
  - apply Qeq_bool_neq in E. pose proof (rs_nonneg closes E) as Hrs.
    set (rs := Spec.avg_gain_14 closes / Spec.avg_loss_14 closes) in *.
    assert (Hpos : 0 < 1 + rs) by lra.
    assert (Hq1 : 0 <= 100 / (1 + rs)).
    { apply Qle_shift_div_l; [assumption | lra]. }
    assert (Hq2 : 100 / (1 + rs) <= 100).
    { apply Qle_shift_div_r; [assumption | lra]. }
    apply round2_bounds; lra.
Qed.

(** [_calculate_rsi] returns on every price list, with a value in
    [[0, 100]]. *)
Lemma _calculate_rsi_total (prices : list Q) :
  exists r, _calculate_rsi prices 14 = Ok r /\ 0 <= r /\ r <= 100.
Proof.
  destruct (Nat.lt_ge_cases (length prices) 15) as [H|H].
  - exists 50. rewrite _calculate_rsi_short by assumption.
    repeat split; discriminate.
  - exists (Spec.rsi_14 prices). rewrite _calculate_rsi_computed by assumption.
    split; [reflexivity | apply rsi_14_range].
Qed.

Lemma closes_of_length (klines : list kline) (closes : list Q) :
  closes_of klines = Ok closes -> length closes = length klines.
Proof.
  revert closes. induction klines as [|k ks IH]; intros closes H; simpl in H.
  - now inversion H.
  - destruct (close_of k); [|discriminate]. cbn [mbind result_bind] in H.
    destruct (closes_of ks) as [cs|]; [|discriminate].
    cbn [mbind result_bind] in H. inversion H; subst. simpl. f_equal. now apply IH.
Qed.

Lemma _calculate_sma_short (prices : list Q) (c : Q) :
  (length prices < 20)%nat -> last prices = Some c ->
  _calculate_sma prices 20 = Ok c.
Proof.
  intros Hlen Hlast. unfold _calculate_sma.
  destruct (Nat.ltb_spec (length prices) 20) as [_|H]; [|lia].
  now rewrite Hlast.
Qed.

Lemma _calculate_sma_full (prices : list Q) :
  (20 <= length prices)%nat ->
  _calculate_sma prices 20 = Ok (Py.sum (Py.last_n 20 prices) / 20).
Proof.
  intros Hlen. unfold _calculate_sma.
  destruct (Nat.ltb_spec (length prices) 20) as [H|_]; [lia|].
  rewrite fdiv_ok by (intros H; discriminate H). reflexivity.
Qed.

Lemma mean_last_20 (prices : list Q) :
  (20 <= length prices)%nat ->
  Spec.mean (Py.last_n 20 prices) = Py.sum (Py.last_n 20 prices) / 20.
Proof.
  intros Hlen. unfold Spec.mean. rewrite length_last_n by lia. reflexivity.
Qed.

(** How [_calculate_indicators] runs once the closes are read and the
    candle list has at least 14 rows. *)
Lemma _calculate_indicators_run (klines : list kline) (closes : list Q) (sma c : Q) :
  (14 <= length klines)%nat ->
  closes_of klines = Ok closes ->
  _calculate_sma closes 20 = Ok sma ->
  last closes = Some c ->
  ~ sma == 0 ->
  exists rsi,
    _calculate_rsi closes 14 = Ok rsi /\
    _calculate_indicators klines =
      Ok {| sma_20 := sma; rsi_14 := rsi; price_vs_sma := (c / sma - 1) * 100 |}.
Proof.
  intros Hlen Hcl Hsma Hlast Hne.
  destruct (_calculate_rsi_total closes) as (rsi & Hrsi & _).
  exists rsi. split; [assumption|].
  unfold _calculate_indicators.
  destruct (Nat.ltb_spec (length klines) 14) as [H|_]; [lia|].
  rewrite Hcl. cbn [mbind result_bind]. rewrite Hsma. cbn [mbind result_bind].
  rewrite Hrsi. cbn [mbind result_bind]. unfold Py.last_item. rewrite Hlast.
  cbn [mbind result_bind]. rewrite (fdiv_ok _ _ Hne). reflexivity.
Qed.

Lemma _calculate_indicators_short (klines : list kline) :
  (length klines < 14)%nat -> _calculate_indicators klines = Ok default_indicators.
Proof.
  intros Hlen. unfold _calculate_indicators.
  destruct (Nat.ltb_spec (length klines) 14) as [_|H]; [reflexivity|lia].
Qed.

(** Below 20 closes the specification's average is over all of them. *)
Lemma spec_sma_20_all (closes : list Q) :
  (length closes <= 20)%nat -> Spec.sma_20 closes = Spec.mean closes.
Proof. intros H. unfold Spec.sma_20. now rewrite last_n_all. Qed.

(** A zero average makes the derivation raise: the last close is divided
    by it. *)
Example _calculate_indicators_zero_sma :
  _calculate_indicators (map Examples.candle (repeat 0 14)) = Raise ZeroDivisionError.
Proof. vm_compute. reflexivity. Qed.

Example trend_bullish :
  _calculate_trend (map Examples.candle [100; 100; 100; 100; 100; 102]) = Ok bullish.
Proof. vm_compute. reflexivity. Qed.

Example trend_bearish :
  _calculate_trend (map Examples.candle [100; 100; 100; 100; 100; 98]) = Ok bearish.
Proof. vm_compute. reflexivity. Qed.

Example trend_neutral :
  _calculate_trend (map Examples.candle [100; 100; 100; 100; 100; 201 # 2]) = Ok neutral.
Proof. vm_compute. reflexivity. Qed.

End MarketDataFacts.

(** ** [market_data.py]: the claims *)

Module MarketDataClaims.
Import MarketDataManager MarketDataFacts.
Local Open Scope Q_scope.

Lemma fetch_snapshot_raises (src : DataSource) (sym : string) :
  (exists e, get_ticker src sym = Raise e) \/ (exists e, get_klines src sym = Raise e) ->
  exists e, fetch_snapshot src sym = Raise e.
Proof.
  intros [[e He]|[e He]]; unfold fetch_snapshot.
  - rewrite He. now exists e.
  - destruct (get_ticker src sym) as [t|e']; cbn [mbind result_bind].
    + rewrite He. now exists e.
    + now exists e'.
Qed.

(** Whatever makes the body of the [try] block raise, the handler answers
    with the cache entry and leaves the cache as it was. *)
Lemma get_market_data_on_raise (src : DataSource) (sym : string)
    (cache : gmap string MarketSnapshot) (e : exn) :
  fetch_snapshot src sym = Raise e ->
  get_market_data src sym cache = (Ok (cache !! sym), cache).
Proof.
  intros He. unfold get_market_data, try_exceptM, lift.
  cbn [mbind M_bind]. now rewrite He.
Qed.

(** C1. When a call to the exchange raises, [get_market_data] returns the
    cached snapshot of the symbol as it is stored, or [None] (no data) when
    the cache has no entry for it; in both cases it returns normally and
    the cache is unchanged. *)
Theorem get_market_data_fetch_failure (src : DataSource) (sym : string)
    (cache : gmap string MarketSnapshot) :
  (exists e, get_ticker src sym = Raise e) \/ (exists e, get_klines src sym = Raise e) ->
  (forall snap, cache !! sym = Some snap ->
     get_market_data src sym cache = (Ok (Some snap), cache)) /\
  (cache !! sym = None -> get_market_data src sym cache = (Ok None, cache)).
Proof.
  intros Hfail. destruct (fetch_snapshot_raises src sym Hfail) as [e He].
  split.
  - intros snap Hc. rewrite (get_market_data_on_raise _ _ _ _ He). now rewrite Hc.
  - intros Hc. rewrite (get_market_data_on_raise _ _ _ _ He). now rewrite Hc.
Qed.

Lemma get_market_data_fetch_failure_witness :
  ((exists e, get_ticker Examples.exchange_down "BTCUSDT" = Raise e) \/
   (exists e, get_klines Examples.exchange_down "BTCUSDT" = Raise e)) /\
  get_market_data Examples.exchange_down "BTCUSDT"
      {["BTCUSDT" := Examples.old_snapshot]}
    = (Ok (Some Examples.old_snapshot), {["BTCUSDT" := Examples.old_snapshot]}) /\
  get_market_data Examples.exchange_down "BTCUSDT" ∅ = (Ok None, ∅).
Proof.
  assert (Hfail : (exists e, get_ticker Examples.exchange_down "BTCUSDT" = Raise e) \/
                  (exists e, get_klines Examples.exchange_down "BTCUSDT" = Raise e)).
  { left. exists (ExternalError "timeout"). reflexivity. }
  split; [exact Hfail|]. split.
  - apply (get_market_data_fetch_failure Examples.exchange_down "BTCUSDT"
             {["BTCUSDT" := Examples.old_snapshot]} Hfail).
    apply lookup_singleton_eq.
  - apply (get_market_data_fetch_failure Examples.exchange_down "BTCUSDT" ∅ Hfail).
    apply lookup_empty.
Defined.

(** The HTTP endpoint turns the missing snapshot into its error body. *)
Lemma api_get_market_data_no_data (src : DataSource)
    (cache : gmap string MarketSnapshot) (e : exn) :
  fetch_snapshot src "BTCUSDT" = Raise e -> cache !! "BTCUSDT" = None ->
  api_get_market_data src cache = (Ok (inr "No market data available"), cache).
Proof.
  intros He Hc. unfold api_get_market_data, try_exceptM, mbind, M_bind.
  rewrite (get_market_data_on_raise _ _ _ _ He), Hc. reflexivity.
Qed.

Lemma last_is_Some {A} (l : list A) : (0 < length l)%nat -> exists x, last l = Some x.
Proof.
  intros Hlen. destruct (last l) as [x|] eqn:E; [now exists x|].
  apply last_None in E. subst. simpl in Hlen. lia.
Qed.

(** C5, as the source has it.  With fewer than 14 candles [sma_20] is the
    default [0.0]; with 14 to 19 it is the last close; with 20 or more it
    is the mean of the last 20 closes.  The last two cases need a non-zero
    average, since the source then divides the last close by it. *)
Theorem sma_20_by_length (klines : list kline) (closes : list Q) :
  closes_of klines = Ok closes ->
  ((length closes < 14)%nat ->
     exists ind, _calculate_indicators klines = Ok ind /\ sma_20 ind = 0) /\
  (forall c, (14 <= length closes < 20)%nat -> last closes = Some c -> ~ c == 0 ->
     exists ind, _calculate_indicators klines = Ok ind /\ sma_20 ind = c) /\
  ((20 <= length closes)%nat -> ~ Spec.sma_20 closes == 0 ->
     exists ind, _calculate_indicators klines = Ok ind /\
                 sma_20 ind = Spec.sma_20 closes).
Proof.
  intros Hcl. pose proof (closes_of_length _ _ Hcl) as Hlen.
  split; [|split].
  - intros H. exists default_indicators.
    rewrite _calculate_indicators_short by lia. now split.
  - intros c H Hlast Hne.
    destruct (_calculate_indicators_run klines closes c c) as (rsi & _ & Hrun);
      [lia | assumption | apply _calculate_sma_short; [lia | assumption]
      | assumption | assumption |].
    eexists. split; [exact Hrun | reflexivity].
  - intros H Hne.
    destruct (last_is_Some closes) as [c Hlast]; [lia|].
    unfold Spec.sma_20 in *. rewrite mean_last_20 in * by assumption.
    destruct (_calculate_indicators_run klines closes
                (Py.sum (Py.last_n 20 closes) / 20) c) as (rsi & _ & Hrun);
      [lia | assumption | now apply _calculate_sma_full
      | assumption | assumption |].
    eexists. split; [exact Hrun | reflexivity].
Qed.

Lemma sma_20_by_length_witness :
  closes_of (map Examples.candle Examples.step_closes) = Ok Examples.step_closes /\
  exists ind, _calculate_indicators (map Examples.candle Examples.step_closes) = Ok ind /\
              sma_20 ind = 114.
Proof.
  split; [reflexivity|].
  destruct (sma_20_by_length (map Examples.candle Examples.step_closes)
              Examples.step_closes eq_refl) as (_ & H & _).
  apply (H 114); [simpl; lia | reflexivity | discriminate].
Defined.

(** C5 as stated fails: for fourteen closes, thirteen at 100 and the last
    at 114, [sma_20] is the last close 114, not the mean of the closes. *)
Lemma sma_20_is_not_the_mean_below_20 :
  (0 < length Examples.step_closes < 20)%nat /\
  Spec.mean Examples.step_closes == 101 /\
  exists ind,
    _calculate_indicators (map Examples.candle Examples.step_closes) = Ok ind /\
    sma_20 ind = 114 /\
    ~ sma_20 ind == Spec.mean Examples.step_closes.
Proof.
  split; [simpl; lia|]. split; [reflexivity|].
  eexists. split; [vm_compute; reflexivity|]. split; [reflexivity|].
  vm_compute. discriminate.
Qed.




(** C7, as the source has it.  [_calculate_rsi] returns on every price
    list and its value lies in [[0, 100]].  With fewer than 15 prices,
    hence fewer than 14 deltas, the value is the neutral [50.0] whatever
    the deltas are.  With at least 15 prices, when the average loss over
    the last 14 deltas is zero the value is exactly [100.0]. *)
Theorem rsi_range_and_saturation (prices : list Q) :
  exists r,
    _calculate_rsi prices 14 = Ok r /\
    (0 <= r /\ r <= 100) /\
    ((length prices < 15)%nat -> r = 50) /\
    ((15 <= length prices)%nat -> Spec.avg_loss_14 prices == 0 -> r = 100).
Proof.
  destruct (_calculate_rsi_total prices) as (r & Hr & Hrange).
  exists r. split; [assumption|]. split; [assumption|]. split.
  - intros Hlen. rewrite _calculate_rsi_short in Hr by assumption.
    now inversion Hr.
  - intros Hlen Hloss. rewrite _calculate_rsi_computed in Hr by assumption.
    inversion Hr; subst r. unfold Spec.rsi_14.
    now rewrite (Qeq_eq_bool _ _ Hloss).
Qed.

Lemma rsi_range_and_saturation_witness :
  (15 <= length (Examples.rising 15))%nat /\
  Spec.avg_loss_14 (Examples.rising 15) == 0 /\
  _calculate_rsi (Examples.rising 15) 14 = Ok 100.
Proof.
  assert (Hlen : (15 <= length (Examples.rising 15))%nat) by (simpl; lia).
  assert (Hloss : Spec.avg_loss_14 (Examples.rising 15) == 0) by reflexivity.
  split; [exact Hlen|]. split; [exact Hloss|].
  destruct (rsi_range_and_saturation (Examples.rising 15)) as (r & Hr & _ & _ & Hsat).
  rewrite Hr. f_equal. now apply Hsat.
Defined.

(** C7 as stated fails on short lists.  The prices 1, 2 have one delta, a
    gain, so the delta sequence is not empty and the average loss is zero,
    yet the value is 50, not 100; the same holds for the fourteen prices
    1, 2, ..., 14. *)
Lemma rsi_is_50_despite_zero_loss :
  deltas_of [1; 2] = [1] /\
  Spec.avg_loss_14 [1; 2] == 0 /\
  _calculate_rsi [1; 2] 14 = Ok 50 /\
  Spec.avg_loss_14 (Examples.rising 14) == 0 /\
  _calculate_rsi (Examples.rising 14) 14 = Ok 50 /\
  ~ 50 == 100.
Proof.
  split; [reflexivity|]. split; [reflexivity|]. split; [reflexivity|].
  split; [reflexivity|]. split; [reflexivity|]. discriminate.
Qed.

End MarketDataClaims.

(** ** [bot_manager.py]: the mock registry *)

Module BotManagerClaims.
Import BotManager.

Lemma trades_of_insert (st : MockBotManager) (m : gmap Z (list MockTrade))
    (bot_id other : Z) (l : list MockTrade) :
  trades_of {| mock_active_bots := mock_active_bots st;
               mock_trades := <[bot_id := l]> m;
               next_bot_id := next_bot_id st |} other
  = if decide (bot_id = other) then l
    else match m !! other with Some t => t | None => [] end.
Proof.
  unfold trades_of. cbn [mock_trades]. rewrite lookup_insert.
  destruct (decide (bot_id = other)); reflexivity.
Qed.

(** The mock applies every recommendation: it returns [True] and appends
    one record to the history of the bot, touching nothing else. *)
Lemma mock_apply_appends (bot_id : Z) (recommendations : gmap string pyval)
    (st : MockBotManager) :
  exists st',
    apply_ai_recommendations bot_id recommendations st = (Ok true, st') /\
    trades_of st' bot_id = trades_of st bot_id ++ [trade_of recommendations] /\
    (forall other, other <> bot_id -> trades_of st' other = trades_of st other) /\
    active_bots st' = active_bots st /\
    next_bot_id st' = next_bot_id st.
Proof.
  eexists. split; [reflexivity|]. cbn [active_bots mock_bot_manager].
  split; [|split; [|split; reflexivity]].
  - rewrite trades_of_insert. now rewrite decide_True.
  - intros other Hne. rewrite trades_of_insert. now rewrite decide_False.
Qed.

(** The remote variant declines a recommendation whose [should_trade] is
    false: it returns [False] and does not reach the backend. *)
Lemma real_apply_declines {R : Type} (max_orders : Z)
    (update : Z -> BotSettings -> M R bool) (bot_id : Z)
    (recommendations : gmap string pyval) (st : R) :
  recommendations !! "should_trade" = Some (PBool false) ->
  real_apply_ai_recommendations max_orders update bot_id recommendations st
  = (Ok false, st).
Proof.
  intros Hflag. unfold real_apply_ai_recommendations, try_exceptM, dict_get.
  rewrite Hflag. reflexivity.
Qed.

(** C2, on the source.  On a recommendation whose [should_trade] is false
    the mock does not decline: it returns [True], and the history of the
    bot grows from no record to one, so "returns false and appends no
    record" fails. *)
Theorem mock_apply_does_not_decline :
  Examples.hold_recommendation !! "should_trade" = Some (PBool false) /\
  fst (apply_ai_recommendations 1000 Examples.hold_recommendation mock_init) = Ok true /\
  length (trades_of mock_init 1000) = 0%nat /\
  length (trades_of
            (snd (apply_ai_recommendations 1000 Examples.hold_recommendation mock_init))
            1000) = 1%nat /\
  ~ (fst (apply_ai_recommendations 1000 Examples.hold_recommendation mock_init) = Ok false /\
     trades_of (snd (apply_ai_recommendations 1000 Examples.hold_recommendation mock_init)) 1000
       = trades_of mock_init 1000).
Proof.
  split; [vm_compute; reflexivity|]. split; [reflexivity|].
  split; [reflexivity|]. split; [vm_compute; reflexivity|].
  intros [H _]. vm_compute in H. discriminate H.
Qed.

(** C10. For every bot id, known or not, [get_bot_stats] of the mock
    returns a statistics record, never [None], and changes nothing: the
    profit is the placeholder ["0.00%"], [total_trades] is the length of
    the recorded history of the bot and [last_trade] its most recent
    record; for an id without history these are [0] and [None]. *)
Theorem mock_get_bot_stats_always_some (bot_id : Z) (st : MockBotManager) :
  exists stats,
    get_bot_stats bot_id st = (Ok (Some stats), st) /\
    profit stats = "0.00%" /\
    (forall trades, mock_trades st !! bot_id = Some trades ->
       total_trades stats = length trades /\ last_trade stats = last trades) /\
    (mock_trades st !! bot_id = None ->
       total_trades stats = 0%nat /\ last_trade stats = None).
Proof.
  eexists. split; [reflexivity|]. cbn [profit total_trades last_trade].
  split; [reflexivity|]. unfold trades_of.
  split.
  - intros trades H. rewrite H. now split.
  - intros H. rewrite H. now split.
Qed.

Lemma mock_get_bot_stats_always_some_witness :
  mock_trades mock_init !! 4242%Z = None /\
  exists stats,
    get_bot_stats 4242%Z mock_init = (Ok (Some stats), mock_init) /\
    total_trades stats = 0%nat /\ last_trade stats = None.
Proof.
  assert (Hnone : mock_trades mock_init !! 4242%Z = None) by apply lookup_empty.
  split; [exact Hnone|].
  destruct (mock_get_bot_stats_always_some 4242%Z mock_init)
    as (stats & Hrun & _ & _ & Hunknown).
  exists stats. split; [exact Hrun|]. exact (Hunknown Hnone).
Defined.

(** After one applied recommendation the statistics count one trade, the
    last one being the record of that recommendation. *)
Lemma mock_stats_after_one_trade (bot_id : Z) (recommendations : gmap string pyval) :
  let st := snd (apply_ai_recommendations bot_id recommendations mock_init) in
  fst (get_bot_stats bot_id st)
  = Ok (Some {| profit := "0.00%"; total_trades := 1;
                last_trade := Some (trade_of recommendations) |}).
Proof.
  destruct (mock_apply_appends bot_id recommendations mock_init)
    as (st' & Hrun & Happ & _).
  rewrite Hrun. cbn [snd get_bot_stats mock_bot_manager].
  unfold mock_get_bot_stats. cbn [fst]. rewrite Happ.
  unfold trades_of, mock_init. cbn [mock_trades]. rewrite lookup_empty.
  reflexivity.
Qed.

End BotManagerClaims.

(** ** [main.py]: failure isolation in the orchestrator *)

Module TradingBotClaims.
Import MarketDataManager BotManager TradingBot.

Section Isolation.
Context {S Stats : Type} `{!BaseBotManager S Stats}.
Variable env : Env.

Lemma appends_ret {A} (a : A) : appends_to_log (mret a : M (TradingBot.State S) A).
Proof. intros st. exists []. cbn. now rewrite app_nil_r. Qed.

Lemma appends_lift {A} (r : result A) : appends_to_log (lift r : M (TradingBot.State S) A).
Proof. intros st. exists []. cbn. now rewrite app_nil_r. Qed.

Lemma appends_logger (r : LogRecord) : appends_to_log (logger r : M (TradingBot.State S) unit).
Proof. intros st. exists [r]. reflexivity. Qed.

Lemma appends_on_market_data {A} (m : M (gmap string MarketSnapshot) A) :
  appends_to_log (on_market_data m : M (TradingBot.State S) A).
Proof.
  intros st. exists []. unfold on_market_data, zoom.
  destruct (m (cached_data st)). cbn. now rewrite app_nil_r.
Qed.

Lemma appends_on_bot_manager {A} (m : M S A) :
  appends_to_log (on_bot_manager m : M (TradingBot.State S) A).
Proof.
  intros st. exists []. unfold on_bot_manager, zoom.
  destruct (m (bot_manager st)). cbn. now rewrite app_nil_r.
Qed.

Lemma appends_bind {A B} (m : M (TradingBot.State S) A) (f : A -> M (TradingBot.State S) B) :
  appends_to_log m -> (forall a, appends_to_log (f a)) -> appends_to_log (m ≫= f).
Proof.
  intros Hm Hf st. unfold mbind, M_bind.
  destruct (Hm st) as [more1 H1]. destruct (m st) as [[a|e] st1]; cbn in *.
  - destruct (Hf a st1) as [more2 H2]. exists (more1 ++ more2).
    now rewrite H2, H1, app_assoc.
  - now exists more1.
Qed.

Lemma appends_try {A} (body : M (TradingBot.State S) A) (handler : exn -> M (TradingBot.State S) A) :
  appends_to_log body -> (forall e, appends_to_log (handler e)) ->
  appends_to_log (try_exceptM body handler).
Proof.
  intros Hm Hf st. unfold try_exceptM.
  destruct (Hm st) as [more1 H1]. destruct (body st) as [[a|e] st1]; cbn in *.
  - now exists more1.
  - destruct (Hf e st1) as [more2 H2]. exists (more1 ++ more2).
    now rewrite H2, H1, app_assoc.
Qed.

Lemma appends_lookup_bot (p : string) : appends_to_log (lookup_bot p : M (TradingBot.State S) _).
Proof.
  intros st. exists []. unfold lookup_bot, get_state, mbind, M_bind.
  destruct (active_bots (bot_manager st) !! p) as [b|]; [destruct (Z.eqb b 0)|];
    cbn; now rewrite app_nil_r.
Qed.

Ltac appends :=
  repeat match goal with
    | |- forall _, _ => intro
    | |- appends_to_log (lookup_bot _) => apply appends_lookup_bot
    | |- appends_to_log (logger _) => apply appends_logger
    | |- appends_to_log (on_market_data _) => apply appends_on_market_data
    | |- appends_to_log (on_bot_manager _) => apply appends_on_bot_manager
    | |- appends_to_log (lift _) => apply appends_lift
    | |- appends_to_log (mret _) => apply appends_ret
    | |- appends_to_log (try_exceptM _ _) => apply appends_try
    | |- appends_to_log (_ ≫= _) => apply appends_bind
    | |- appends_to_log (match ?x with _ => _ end) => destruct x
    end.

Lemma appends_log_status (p : string) (md : MarketSnapshot) (a : gmap string pyval) :
  appends_to_log (log_status (S := S) p md a).
Proof. unfold log_status. appends. Qed.

Lemma appends_process_trading_pair (p : string) :
  appends_to_log (process_trading_pair (S := S) env p).
Proof.
  unfold process_trading_pair. appends. apply appends_log_status.
Qed.

(** The handler of [process_trading_pair] swallows every exception. *)
Lemma process_trading_pair_returns (p : string) (st : TradingBot.State S) :
  fst (process_trading_pair env p st) = Ok tt.
Proof.
  unfold process_trading_pair, try_exceptM.
  match goal with |- context [let (_, _) := ?b st in _] => destruct (b st) as [[[]|e] st'] end;
    reflexivity.
Qed.

Lemma run_pairs_fold (pairs : list string) (st : TradingBot.State S) :
  run_pairs env pairs st
  = (Ok tt, foldl (fun s p => snd (process_trading_pair env p s)) st pairs).
Proof.
  revert st. induction pairs as [|p ps IH]; intros st; [reflexivity|].
  unfold run_pairs in *. cbn [for_each foldl]. unfold mbind, M_bind.
  pose proof (process_trading_pair_returns p st) as Hp.
  destruct (process_trading_pair env p st) as [r st1]. cbn in Hp. subst r.
  apply IH.
Qed.

Lemma run_pairs_app (pre post : list string) (st : TradingBot.State S) :
  snd (run_pairs env (pre ++ post) st)
  = snd (run_pairs env post (snd (run_pairs env pre st))).
Proof. rewrite !run_pairs_fold. cbn [snd]. apply foldl_app. Qed.

Lemma appends_run_pairs (pairs : list string) :
  appends_to_log (run_pairs (S := S) env pairs).
Proof.
  unfold run_pairs. induction pairs as [|p ps IH]; cbn [for_each].
  - apply appends_ret.
  - apply appends_bind; [apply appends_process_trading_pair | intros _; exact IH].
Qed.

(** When every step of a pair succeeds, its status record is logged. *)
Lemma process_trading_pair_success (p : string) (st : TradingBot.State S)
    (md : MarketSnapshot) (a : gmap string pyval) (stats : Stats) :
  steps_succeed env p st md a stats ->
  exists st',
    process_trading_pair env p st = (Ok tt, st') /\
    log st' = log st ++ [InfoUpdated p; status_record p md a stats].
Proof.
  intros (cache' & bot_id & b1 & bot_id' & b2 & Hmd & Han & Hne & Hbot & Hnz
          & Happ & Hbot' & Hnz' & Hstats).
  unfold process_trading_pair, log_status, try_exceptM, on_market_data,
    on_bot_manager, lookup_bot, zoom, logger, modify, get_state, lift,
    mbind, M_bind, mret, M_ret.
  cbn [cached_data bot_manager log].
  apply Z.eqb_neq in Hnz, Hnz'.
  rewrite Hmd, Han. unfold usable_analysis. rewrite decide_False by assumption.
  cbn [cached_data bot_manager log]. rewrite Hbot, Hnz.
  cbn [cached_data bot_manager log]. rewrite Happ.
  cbn [cached_data bot_manager log]. rewrite Hbot', Hnz'.
  cbn [cached_data bot_manager log]. rewrite Hstats.
  eexists. split; [reflexivity|]. cbn [log]. now rewrite <- app_assoc.
Qed.

(** C4. For every list of configured pairs, no exception leaves
    [process_trading_pair]; one iteration of the cycle therefore returns
    normally and is the sequence of the per-pair steps over every pair, in
    order; and a pair whose steps all succeed gets its status record
    logged, whatever happened to the pairs before and after it. *)
Theorem cycle_isolates_pair_failures (pairs : list string) (st : TradingBot.State S) :
  (forall p s, fst (process_trading_pair env p s) = Ok tt) /\
  run_pairs env pairs st
  = (Ok tt, foldl (fun s p => snd (process_trading_pair env p s)) st pairs) /\
  (forall pre p2 post md a stats,
     pairs = pre ++ p2 :: post ->
     steps_succeed env p2 (snd (run_pairs env pre st)) md a stats ->
     status_record p2 md a stats ∈ log (snd (run_pairs env pairs st))).
Proof.
  split; [apply process_trading_pair_returns|]. split; [apply run_pairs_fold|].
  intros pre p2 post md a stats -> Hok.
  rewrite run_pairs_app.
  set (st1 := snd (run_pairs env pre st)) in *.
  destruct (process_trading_pair_success p2 st1 md a stats Hok) as (st2 & Hrun & Hlog).
  assert (Hstep : snd (run_pairs env (p2 :: post) st1) = snd (run_pairs env post st2)).
  { unfold run_pairs. cbn [for_each]. unfold mbind, M_bind. now rewrite Hrun. }
  rewrite Hstep. destruct (appends_run_pairs post st2) as [more Hmore].
  rewrite Hmore, Hlog. set_solver.
Qed.

End Isolation.

Lemma cycle_isolates_pair_failures_witness :
  get_market_data Examples.eth_only_exchange "BTCUSDT" ∅ = (Ok None, ∅) /\
  steps_succeed Examples.two_pairs "ETHUSDT"
    (snd (run_pairs Examples.two_pairs ["BTCUSDT"] Examples.after_setup))
    Examples.eth_snapshot Examples.buy_recommendation Examples.eth_stats /\
  InfoStatus "ETHUSDT" 16 2 "0.00%" (PNum 90)
    ∈ log (snd (run_pairs Examples.two_pairs ["BTCUSDT"; "ETHUSDT"] Examples.after_setup)).
Proof.
  split; [reflexivity|].
  assert (Hok : steps_succeed Examples.two_pairs "ETHUSDT"
                  (snd (run_pairs Examples.two_pairs ["BTCUSDT"] Examples.after_setup))
                  Examples.eth_snapshot Examples.buy_recommendation Examples.eth_stats).
  { unfold steps_succeed. do 5 eexists.
    repeat split; try (vm_compute; reflexivity); discriminate. }
  split; [exact Hok|].
  destruct (cycle_isolates_pair_failures Examples.two_pairs
              ["BTCUSDT"; "ETHUSDT"] Examples.after_setup) as (_ & _ & H).
  exact (H ["BTCUSDT"] "ETHUSDT" [] _ _ _ eq_refl Hok).
Defined.

(** An exception raised by the registry is logged at the pair and the
    iteration returns normally. *)
Example raising_registry_is_contained :
  run_iteration Examples.two_pairs Examples.with_base_registry
  = (Ok tt,
     {| cached_data := {[ "ETHUSDT" := Examples.eth_snapshot ]};
        bot_manager := bot_manager Examples.with_base_registry;
        log := [WarnNoMarketData "BTCUSDT";
                ErrorProcessing "ETHUSDT" NotImplementedError] |}).
Proof. vm_compute. reflexivity. Qed.

End TradingBotClaims.

(** ** [websocket_manager.py]: broadcast, disconnection, collection *)

Module WebsocketClaims.
Import BinanceWebsocketManager.

Lemma set_sent_same (st : State) : set_sent (sent st) st = st.
Proof. now destruct st. Qed.

Section Broadcast.
Variable env : Env.

Lemma deliver_ok (c : conn) (data : Tick) (st : State) :
  delivers env data c ->
  deliver env c data st = (Ok tt, set_sent (sent st ++ [(c, data)]) st).
Proof.
  unfold delivers, deliver, lift, modify, mbind, M_bind. intros H.
  destruct (send_json env c data); [reflexivity | discriminate].
Qed.

Lemma deliver_fails (c : conn) (data : Tick) (st : State) :
  ~ delivers env data c -> exists e, deliver env c data st = (Raise e, st).
Proof.
  unfold delivers, deliver, lift, modify, mbind, M_bind. intros H.
  destruct (send_json env c data) as [|e]; [now destruct H | now exists e].
Qed.

(** The sweep attempts every socket of the order: it delivers to those
    whose send succeeds, collects the others, and leaves every field but
    [sent] as it was. *)
Lemma sweep_spec (order : list conn) (data : Tick) (d : gset conn) (st : State) :
  sweep env order data d st
  = (Ok (list_to_set (filter (fun c => ~ delivers env data c) order) ∪ d),
     set_sent (sent st ++ ((fun c => (c, data)) <$> filter (delivers env data) order)) st).
Proof.
  revert d st. induction order as [|c rest IH]; intros d st.
  - cbn [sweep filter list_filter fmap list_fmap list_to_set foldr]. unfold mret, M_ret.
    rewrite app_nil_r, set_sent_same, (left_id_L ∅ (∪)). reflexivity.
  - cbn [sweep]. unfold mbind at 1, M_bind at 1, try_exceptM.
    rewrite !filter_cons.
    destruct (decide (delivers env data c)) as [Hok|Hno].
    + unfold mbind at 1, M_bind at 1. rewrite (deliver_ok _ _ _ Hok).
      cbn [mret M_ret]. rewrite IH. rewrite decide_False by tauto.
      rewrite fmap_cons. f_equal. destruct st; unfold set_sent; cbn.
      now rewrite <- app_assoc.
    + unfold mbind at 1, M_bind at 1.
      destruct (deliver_fails c data st Hno) as [e He]. rewrite He.
      cbn [mret M_ret]. rewrite IH. rewrite decide_True by assumption.
      f_equal. f_equal. rewrite list_to_set_cons. set_solver.
Qed.

Lemma broadcast_spec (data : Tick) (st : State) :
  broadcast env data st
  = (Ok tt,
     set_active_connections
       (active_connections st
          ∖ list_to_set (filter (fun c => ~ delivers env data c)
                           (conn_iter env (active_connections st))))
       (set_sent (sent st ++ ((fun c => (c, data)) <$>
                    filter (delivers env data) (conn_iter env (active_connections st)))) st)).
Proof.
  unfold broadcast, get_state, modify. unfold mbind at 1, M_bind at 1.
  unfold mbind, M_bind. rewrite sweep_spec. cbn [active_connections set_sent].
  f_equal. f_equal. set_solver.
Qed.

Lemma three_elements (A B C : conn) (order : list conn) :
  A <> B -> B <> C -> A <> C ->
  order ≡ₚ elements ({[A; B; C]} : gset conn) -> order ≡ₚ [A; B; C].
Proof.
  intros HAB HBC HAC ->. apply NoDup_Permutation.
  - apply NoDup_elements.
  - repeat constructor; set_solver.
  - intros x. rewrite elem_of_elements. set_solver.
Qed.

(** C3. With the live set {A, B, C}, whatever the order in which it is
    iterated, when the delivery to B fails and those to A and C succeed:
    the sweep delivers the payload once to A and once to C, records
    exactly B, and leaves the live set untouched up to and including its
    last step; the live set is then reduced to {A, C} in one update. *)
Theorem broadcast_prunes_failed_after_sweep (A B C : conn) (data : Tick) (st : State) :
  iteration_ok env ->
  A <> B -> B <> C -> A <> C ->
  active_connections st = {[A; B; C]} ->
  delivers env data A -> ~ delivers env data B -> delivers env data C ->
  exists mid delivered,
    sweep env (conn_iter env (active_connections st)) data ∅ st = (Ok {[B]}, mid) /\
    (forall pre post d,
       conn_iter env (active_connections st) = pre ++ post ->
       active_connections (snd (sweep env pre data d st)) = {[A; B; C]}) /\
    sent mid = sent st ++ delivered /\
    delivered ≡ₚ [(A, data); (C, data)] /\
    broadcast env data st = (Ok tt, set_active_connections {[A; C]} mid).
Proof.
  intros [Hiter _] HAB HBC HAC Hact HA HB HC.
  assert (Hperm : conn_iter env (active_connections st) ≡ₚ [A; B; C]).
  { apply three_elements; [assumption..|]. rewrite <- Hact. apply Hiter. }
  assert (Hfailed : list_to_set (filter (fun c => ~ delivers env data c)
                                   (conn_iter env (active_connections st)))
                    = ({[B]} : gset conn)).
  { rewrite Hperm. rewrite !filter_cons, filter_nil.
    rewrite (decide_False (P := ~ delivers env data A)) by tauto.
    rewrite (decide_True (P := ~ delivers env data B)) by tauto.
    rewrite (decide_False (P := ~ delivers env data C)) by tauto.
    set_solver. }
  assert (Hdelivered : filter (delivers env data) (conn_iter env (active_connections st))
                       ≡ₚ [A; C]).
  { rewrite Hperm. rewrite !filter_cons, filter_nil.
    rewrite (decide_True (P := delivers env data A)) by assumption.
    rewrite (decide_False (P := delivers env data B)) by assumption.
    rewrite (decide_True (P := delivers env data C)) by assumption.
    reflexivity. }
  eexists. exists ((fun c => (c, data)) <$>
                     filter (delivers env data) (conn_iter env (active_connections st))).
  split; [|split; [|split; [|split]]].
  - rewrite sweep_spec, Hfailed, (right_id_L ∅ (∪)). reflexivity.
  - intros pre post d _. rewrite sweep_spec. cbn [snd]. exact Hact.
  - reflexivity.
  - now rewrite Hdelivered.
  - rewrite broadcast_spec, Hfailed. f_equal.
    unfold set_active_connections. cbn. f_equal.
    rewrite Hact. apply set_eq. intros x. set_solver.
Qed.

End Broadcast.

Lemma broadcast_prunes_failed_after_sweep_witness :
  iteration_ok Examples.flaky /\
  active_connections Examples.three_clients = {[1%nat; 2%nat; 3%nat]} /\
  delivers Examples.flaky Examples.btc_tick 1%nat /\
  ~ delivers Examples.flaky Examples.btc_tick 2%nat /\
  delivers Examples.flaky Examples.btc_tick 3%nat /\
  exists mid delivered,
    sweep Examples.flaky
      (conn_iter Examples.flaky (active_connections Examples.three_clients))
      Examples.btc_tick ∅ Examples.three_clients = (Ok {[2%nat]}, mid) /\
    sent mid = sent Examples.three_clients ++ delivered /\
    delivered ≡ₚ [(1%nat, Examples.btc_tick); (3%nat, Examples.btc_tick)] /\
    broadcast Examples.flaky Examples.btc_tick Examples.three_clients
    = (Ok tt, set_active_connections {[1%nat; 3%nat]} mid).
Proof.
  assert (Hiter : iteration_ok Examples.flaky) by (split; intros s; reflexivity).
  assert (H1 : delivers Examples.flaky Examples.btc_tick 1%nat) by reflexivity.
  assert (H2 : ~ delivers Examples.flaky Examples.btc_tick 2%nat) by discriminate.
  assert (H3 : delivers Examples.flaky Examples.btc_tick 3%nat) by reflexivity.
  split; [exact Hiter|]. split; [reflexivity|].
  split; [exact H1|]. split; [exact H2|]. split; [exact H3|].
  destruct (broadcast_prunes_failed_after_sweep Examples.flaky 1%nat 2%nat 3%nat
              Examples.btc_tick Examples.three_clients Hiter
              ltac:(discriminate) ltac:(discriminate) ltac:(discriminate)
              eq_refl H1 H2 H3)
    as (mid & delivered & Hsweep & _ & Hsent & Hperm & Hcast).
  exists mid, delivered. repeat split; assumption.
Defined.

Lemma connect_closed_absent (websocket : conn) (st : State) :
  websocket ∉ active_connections st ->
  connect_closed websocket st = (Raise KeyError, st).
Proof.
  intros H. unfold connect_closed, get_state, mbind, M_bind.
  now rewrite decide_False.
Qed.

Lemma connect_closed_present (websocket : conn) (st : State) :
  websocket ∈ active_connections st ->
  connect_closed websocket st
  = (Ok tt, set_active_connections (active_connections st ∖ {[websocket]}) st).
Proof.
  intros H. unfold connect_closed, get_state, mbind, M_bind.
  now rewrite decide_True.
Qed.

(** C9, on the source.  A socket is accepted, a broadcast fails on it and
    prunes it, then its channel ends: the removal in [connect] finds the
    socket absent and raises [KeyError] instead of doing nothing. *)
Theorem closing_a_pruned_connection_raises :
  let st1 := snd (connect_open Examples.flaky 2%nat init) in
  let st2 := snd (broadcast Examples.flaky Examples.btc_tick st1) in
  active_connections st1 = {[2%nat]} /\
  active_connections st2 = ∅ /\
  connect_closed 2%nat st2 = (Raise KeyError, st2).
Proof.
  assert (H1 : active_connections (snd (connect_open Examples.flaky 2%nat init))
               = {[2%nat]}).
  { cbn. apply (right_id_L ∅ (∪)). }
  assert (H2 : active_connections
                 (snd (broadcast Examples.flaky Examples.btc_tick
                         (snd (connect_open Examples.flaky 2%nat init)))) = ∅).
  { rewrite broadcast_spec. cbn [snd]. unfold set_active_connections at 1.
    cbn [active_connections]. rewrite H1.
    change (conn_iter Examples.flaky) with (elements (C := gset conn)).
    rewrite elements_singleton. vm_compute. reflexivity. }
  cbv zeta. split; [exact H1|]. split; [exact H2|].
  apply connect_closed_absent. rewrite H2. set_solver.
Qed.

Section Collection.
Variable env : Env.

Lemma notify_state (data : Tick) (st : State) : notify env data st = (Ok tt, st).
Proof.
  unfold notify, get_state. unfold mbind at 1, M_bind at 1.
  generalize (price_callbacks st). intros cbs.
  induction cbs as [|cb cbs IH]; [reflexivity|].
  cbn [for_each]. unfold mbind, M_bind, try_exceptM, lift.
  destruct (callback env cb data); exact IH.
Qed.

(** Processing a symbol writes the live state of that symbol only, and
    sends nothing unless its ticker was fetched. *)
Lemma update_symbol_frame (sym other : string) (st : State) :
  other <> sym ->
  market_data (snd (update_symbol env sym st)) !! other = market_data st !! other.
Proof.
  intros Hne. unfold update_symbol, lift, modify.
  unfold mbind, M_bind.
  destruct (get_ticker env sym) as [ticker|]; [|reflexivity].
  destruct (Py.getitem ticker "lastPrice"); [|reflexivity].
  destruct (Py.getitem ticker "priceChangePercent"); [|reflexivity].
  destruct (Py.getitem ticker "volume"); [|reflexivity].
  rewrite notify_state, broadcast_spec. cbn.
  now rewrite lookup_insert_ne.
Qed.

Lemma update_symbol_raises (sym : string) (st : State) (e : exn) :
  get_ticker env sym = Raise e -> update_symbol env sym st = (Raise e, st).
Proof.
  intros H. unfold update_symbol, lift. unfold mbind, M_bind. now rewrite H.
Qed.

Lemma for_each_frame (syms : list string) (other : string) (st : State) :
  other ∉ syms ->
  market_data (snd (for_each syms (update_symbol env) st)) !! other
  = market_data st !! other.
Proof.
  revert st. induction syms as [|s syms IH]; intros st Hnot; [reflexivity|].
  apply not_elem_of_cons in Hnot as [Hne Hnot].
  cbn [for_each]. unfold mbind, M_bind.
  pose proof (update_symbol_frame s other st Hne) as Hs.
  destruct (update_symbol env s st) as [[[]|e] st1]; cbn [snd] in *.
  - now rewrite IH.
  - exact Hs.
Qed.

Lemma for_each_stops (pre post : list string) (s : string) (st st_pre : State) (e : exn) :
  for_each pre (update_symbol env) st = (Ok tt, st_pre) ->
  get_ticker env s = Raise e ->
  for_each (pre ++ s :: post) (update_symbol env) st = (Raise e, st_pre).
Proof.
  revert st. induction pre as [|p pre IH]; intros st Hpre Hs.
  - cbn in Hpre. inversion Hpre; subst. cbn [app for_each].
    unfold mbind, M_bind. now rewrite (update_symbol_raises _ _ _ Hs).
  - cbn [app for_each] in *. unfold mbind, M_bind in *.
    destruct (update_symbol env p st) as [[[]|e'] st1]; [|discriminate].
    now apply IH.
Qed.

(** C8, as the source has it.  [start] schedules one collection task,
    whatever the number of subscribed symbols, and subscribing schedules
    none.  That task visits the symbols one after the other: when the
    ticker of a symbol cannot be fetched, the symbols after it are not
    visited in this iteration, their live state stays as it was, and the
    task sleeps 5 seconds before the next iteration. *)
Theorem one_task_polls_all_symbols (st : State) :
  (is_running st = false -> client_create env = Ok tt ->
     tasks (snd (start env st)) = tasks st ++ [collect_market_data_task]) /\
  (forall symbols, tasks (snd (subscribe_symbols symbols st)) = tasks st) /\
  (forall pre s post e st_pre,
     symbol_iter env (subscribed_symbols st) = pre ++ s :: post ->
     for_each pre (update_symbol env) st = (Ok tt, st_pre) ->
     get_ticker env s = Raise e ->
     collect_iteration env st = (Ok 5%nat, st_pre) /\
     forall later, later ∈ post -> later ∉ pre ->
       market_data st_pre !! later = market_data st !! later).
Proof.
  split; [|split].
  - intros Hrun Hclient. unfold start, get_state, try_exceptM, modify, lift.
    unfold mbind, M_bind. rewrite Hrun. cbn. rewrite Hclient. reflexivity.
  - intros symbols. unfold subscribe_symbols, try_exceptM.
    assert (H : forall l s0, tasks (snd (for_each l subscribe_symbol s0)) = tasks s0).
    { induction l as [|x l IH]; intros s0; [reflexivity|].
      cbn [for_each]. unfold mbind at 1, M_bind at 1.
      unfold subscribe_symbol at 1, get_state, modify. unfold mbind, M_bind.
      destruct (decide (x ∈ subscribed_symbols s0)); cbn; now rewrite IH. }
    specialize (H symbols st).
    destruct (for_each symbols subscribe_symbol st) as [[[]|e] st']; exact H.
  - intros pre s post e st_pre Hiter Hpre Hs. split.
    + unfold collect_iteration, try_exceptM, get_state.
      unfold mbind at 1, M_bind at 1. unfold mbind at 1, M_bind at 1.
      rewrite Hiter, (for_each_stops pre post s st st_pre e Hpre Hs). reflexivity.
    + intros later _ Hnot.
      pose proof (for_each_frame pre later st Hnot) as H.
      now rewrite Hpre in H.
Qed.

End Collection.

Lemma one_task_polls_all_symbols_witness :
  symbol_iter Examples.flaky (subscribed_symbols Examples.streaming)
    = [] ++ "ETHUSDT" :: ["BTCUSDT"] /\
  get_ticker Examples.flaky "ETHUSDT" = Raise (ExternalError "timeout") /\
  collect_iteration Examples.flaky Examples.streaming = (Ok 5%nat, Examples.streaming).
Proof.
  assert (H1 : symbol_iter Examples.flaky (subscribed_symbols Examples.streaming)
               = [] ++ "ETHUSDT" :: ["BTCUSDT"]) by (vm_compute; reflexivity).
  assert (H2 : get_ticker Examples.flaky "ETHUSDT" = Raise (ExternalError "timeout"))
    by reflexivity.
  split; [exact H1|]. split; [exact H2|].
  destruct (one_task_polls_all_symbols Examples.flaky Examples.streaming) as (_ & _ & H).
  exact (proj1 (H [] "ETHUSDT" ["BTCUSDT"] _ Examples.streaming H1 eq_refl H2)).
Defined.

(** C8 as stated fails.  With two subscribed symbols there is one task,
    not two; and when the ticker of ETHUSDT cannot be fetched, BTCUSDT,
    whose own ticker is available, is neither updated nor broadcast in
    that iteration, and the next iteration comes after 5 seconds. *)
Lemma one_symbol_backoff_stalls_the_other :
  size (subscribed_symbols Examples.streaming) = 2%nat /\
  tasks Examples.streaming = [collect_market_data_task] /\
  is_ok (get_ticker Examples.flaky "BTCUSDT") = true /\
  fst (collect_iteration Examples.flaky Examples.streaming) = Ok 5%nat /\
  market_data (snd (collect_iteration Examples.flaky Examples.streaming)) !! "BTCUSDT"
    = Some {| symbol := "BTCUSDT"; current_price := None; price_change_24h := None;
              volume_24h := None; timestamp := None |} /\
  sent (snd (collect_iteration Examples.flaky Examples.streaming)) = [] /\
  ~ (length (tasks Examples.streaming) = size (subscribed_symbols Examples.streaming)).
Proof.
  repeat split; try (vm_compute; reflexivity).
  vm_compute. discriminate.
Qed.

End WebsocketClaims.

(** ** [market_data.py]: further properties of the derivations *)

Module MarketDataExtras.
Import MarketDataManager MarketDataFacts.
Local Open Scope Q_scope.

Lemma closes_of_app (a b : list kline) (ca cb : list Q) :
  closes_of a = Ok ca -> closes_of b = Ok cb -> closes_of (a ++ b) = Ok (ca ++ cb).
Proof.
  revert ca. induction a as [|k a IH]; intros ca Ha Hb; simpl in *.
  - inversion Ha; subst. exact Hb.
  - destruct (close_of k) as [c|]; [|discriminate]. cbn [mbind result_bind] in *.
    destruct (closes_of a) as [cs|]; [|discriminate]. cbn [mbind result_bind] in *.
    inversion Ha; subst. rewrite (IH cs eq_refl Hb). reflexivity.
Qed.

(** The sign of the percentage change against a positive first price. *)
Lemma pct_change_gt (first last : Q) :
  0 < first ->
  (1 < (last - first) / first * 100 <-> first * 101 < last * 100).
Proof.
  intros Hpos. split; intros H.
  - assert (H1 : (1 # 100) < (last - first) / first) by lra.
    assert (H2 : (1 # 100) * first < (last - first) / first * first).
    { apply Qmult_lt_compat_r; assumption. }
    assert (E : (last - first) / first * first == last - first) by (field; lra).
    rewrite E in H2. lra.
  - assert (H1 : (1 # 100) < (last - first) / first).
    { apply Qlt_shift_div_l; [assumption | lra]. }
    lra.
Qed.

Lemma pct_change_lt (first last : Q) :
  0 < first ->
  ((last - first) / first * 100 < -1 <-> last * 100 < first * 99).
Proof.
  intros Hpos. split; intros H.
  - assert (H1 : (last - first) / first < - (1 # 100)) by lra.
    assert (H2 : (last - first) / first * first < - (1 # 100) * first).
    { apply Qmult_lt_compat_r; assumption. }
    assert (E : (last - first) / first * first == last - first) by (field; lra).
    rewrite E in H2. lra.
  - assert (H1 : (last - first) / first < - (1 # 100)).
    { apply Qlt_shift_div_r; [assumption | lra]. }
    lra.
Qed.

(** How [_calculate_trend] runs once the closes of its window are read. *)
Lemma _calculate_trend_run (klines : list kline) (first last : Q) (mid : list Q) :
  (2 <= length klines)%nat ->
  closes_of (Py.last_n 6 klines) = Ok (first :: mid ++ [last]) ->
  _calculate_trend klines =
    (q ← Py.fdiv (last - first) first;
     if Py.gt (q * 100) 1 then Ok bullish
     else if Py.lt (q * 100) (-1) then Ok bearish else Ok neutral).
Proof.
  intros Hlen Hcl. unfold _calculate_trend.
  destruct (Nat.ltb_spec (length klines) 2) as [H|_]; [lia|].
  rewrite Hcl. cbn [mbind result_bind Py.first_item].
  unfold Py.last_item. rewrite app_comm_cons, last_snoc. reflexivity.
Qed.

(** X1. With at least two candles and a positive first close in the
    window of the last six, the trend never contradicts the direction of
    the move: it is bullish only when the last close is above the first,
    bearish only when it is below, and neutral when the two are equal.  A
    rise of 2 percent or more is always bullish and a fall of 2 percent or
    more always bearish. *)
Theorem trend_follows_price_direction (klines : list kline) (first last : Q)
    (mid : list Q) :
  (2 <= length klines)%nat ->
  closes_of (Py.last_n 6 klines) = Ok (first :: mid ++ [last]) ->
  0 < first ->
  exists t,
    _calculate_trend klines = Ok t /\
    (t = bullish -> first < last) /\
    (t = bearish -> last < first) /\
    (first == last -> t = neutral) /\
    (first * 102 <= last * 100 -> t = bullish) /\
    (last * 100 <= first * 98 -> t = bearish).
Proof.
  intros Hlen Hcl Hpos. rewrite (_calculate_trend_run _ _ _ _ Hlen Hcl).
  rewrite fdiv_ok by lra. cbn [mbind result_bind].
  pose proof (pct_change_gt first last Hpos) as Hgt.
  pose proof (pct_change_lt first last Hpos) as Hlt.
  destruct (Py.gt ((last - first) / first * 100) 1) eqn:E1.
  - apply gt_spec in E1. apply Hgt in E1.
    exists bullish. split; [reflexivity|].
    repeat split; try discriminate; try reflexivity; intros; lra.
  - assert (N1 : ~ first * 101 < last * 100).
    { intros H. apply Hgt, gt_spec in H. congruence. }
    destruct (Py.lt ((last - first) / first * 100) (-1)) eqn:E2.
    + apply lt_spec in E2. apply Hlt in E2.
      exists bearish. split; [reflexivity|].
      repeat split; try discriminate; try reflexivity; intros; lra.
    + assert (N2 : ~ last * 100 < first * 99).
      { intros H. apply Hlt, lt_spec in H. congruence. }
      exists neutral. split; [reflexivity|].
      repeat split; try discriminate; try reflexivity; intros; lra.
Qed.

Lemma trend_follows_price_direction_witness :
  closes_of (Py.last_n 6 (map Examples.candle [100; 100; 100; 100; 100; 102]))
    = Ok (100 :: [100; 100; 100; 100] ++ [102]) /\
  _calculate_trend (map Examples.candle [100; 100; 100; 100; 100; 102]) = Ok bullish.
Proof.
  split; [reflexivity|].
  destruct (trend_follows_price_direction
              (map Examples.candle [100; 100; 100; 100; 100; 102])
              100 102 [100; 100; 100; 100]) as (t & Ht & _ & _ & _ & Hup & _);
    [simpl; lia | reflexivity | reflexivity |].
  rewrite Ht. f_equal. apply Hup. discriminate.
Defined.




Lemma length_last_n_ge {A} (n k : nat) (l : list A) :
  (k <= n)%nat -> (k <= length l)%nat -> (k <= length (Py.last_n n l))%nat.
Proof.
  intros Hn Hl. unfold Py.last_n. destruct (Nat.eqb n 0); [assumption|].
  rewrite length_skipn. lia.
Qed.

Lemma abs_pct_changes_cons (a b : Q) (p : list Q) :
  abs_pct_changes (a :: b :: p)
  = (q ← Py.fdiv (b - a) a;
     rest ← abs_pct_changes (b :: p);
     Ok (Qabs (q * 100) :: rest)).
Proof. reflexivity. Qed.

Lemma abs_pct_changes_ok (p : list Q) :
  Forall (fun c => ~ c == 0) p ->
  exists changes,
    abs_pct_changes p = Ok changes /\
    length changes = (length p - 1)%nat /\
    Forall (fun x => 0 <= x) changes.
Proof.
  induction p as [|a p IH]; intros Hp.
  - exists []. repeat split; constructor.
  - inversion Hp as [|? ? Ha Hp']; subst. destruct (IH Hp') as (rest & Hrest & Hlen & Hpos).
    destruct p as [|b p].
    + exists []. repeat split; constructor.
    + exists (Qabs ((b - a) / a * 100) :: rest).
      rewrite abs_pct_changes_cons, (fdiv_ok _ _ Ha). cbn [mbind result_bind].
      rewrite Hrest. cbn [mbind result_bind]. split; [reflexivity|]. split.
      * cbn [length] in *. lia.
      * constructor; [apply Qabs_nonneg | assumption].
Qed.

(** X3. With at least two candles whose closes in the window of the last
    twelve are read and non-zero, [_calculate_volatility] returns, and its
    value is not negative. *)
Theorem volatility_nonneg (klines : list kline) (closes : list Q) :
  (2 <= length klines)%nat ->
  closes_of (Py.last_n 12 klines) = Ok closes ->
  Forall (fun c => ~ c == 0) closes ->
  exists v, _calculate_volatility klines = Ok v /\ 0 <= v.
Proof.
  intros Hlen Hcl Hnz.
  assert (Hwin : (2 <= length closes)%nat).
  { rewrite (closes_of_length _ _ Hcl). apply length_last_n_ge; lia. }
  destruct (abs_pct_changes_ok closes Hnz) as (changes & Hch & Hn & Hpos).
  unfold _calculate_volatility.
  destruct (Nat.ltb_spec (length klines) 2) as [H|_]; [lia|].
  rewrite Hcl. cbn [mbind result_bind]. rewrite Hch. cbn [mbind result_bind].
  assert (Hden : 0 < Py.of_nat (length changes)).
  { unfold Py.of_nat. change 0 with (inject_Z 0). rewrite <- Zlt_Qlt. lia. }
  rewrite fdiv_ok by lra. eexists. split; [reflexivity|].
  apply Qle_shift_div_l; [assumption|]. rewrite Qmult_0_l. now apply sum_nonneg.
Qed.

Lemma volatility_nonneg_witness :
  closes_of (Py.last_n 12 (map Examples.candle [100; 102; 99]))
    = Ok [100; 102; 99] /\
  exists v, _calculate_volatility (map Examples.candle [100; 102; 99]) = Ok v /\ 0 <= v.
Proof.
  split; [reflexivity|].
  apply (volatility_nonneg (map Examples.candle [100; 102; 99]) [100; 102; 99]);
    [simpl; lia | reflexivity |].
  repeat constructor; discriminate.
Defined.

Lemma get_market_data_total (src : DataSource) (sym : string)
    (cache : gmap string MarketSnapshot) :
  exists r cache', get_market_data src sym cache = (Ok r, cache').
Proof.
  unfold get_market_data, try_exceptM, lift, modify, get_state, mbind, M_bind.
  destruct (fetch_snapshot src sym); do 2 eexists; reflexivity.
Qed.

(** X5. [get_market_data] never raises, what it returns is the cache entry
    of the symbol after the call, and the entries of the other symbols are
    left as they were. *)
Theorem get_market_data_returns_cache_entry (src : DataSource) (sym : string)
    (cache : gmap string MarketSnapshot) :
  exists r cache',
    get_market_data src sym cache = (Ok r, cache') /\
    r = cache' !! sym /\
    (forall other, other <> sym -> cache' !! other = cache !! other).
Proof.
  unfold get_market_data, try_exceptM, lift, modify, get_state, mbind, M_bind.
  destruct (fetch_snapshot src sym) as [md|e].
  - exists (Some md), (<[sym := md]> cache). split; [reflexivity|]. split.
    + now rewrite lookup_insert_eq.
    + intros other Hne. now rewrite lookup_insert_ne.
  - exists (cache !! sym), cache. repeat split; reflexivity.
Qed.

(** X4. After a fetch that succeeded, a fetch of the same symbol that
    fails returns the snapshot of the successful one, unchanged. *)
Theorem failed_fetch_returns_last_success (good bad : DataSource) (sym : string)
    (cache : gmap string MarketSnapshot) (md : MarketSnapshot) (e : exn) :
  fetch_snapshot good sym = Ok md ->
  fetch_snapshot bad sym = Raise e ->
  fst (get_market_data good sym cache) = Ok (Some md) /\
  fst (get_market_data bad sym (snd (get_market_data good sym cache))) = Ok (Some md).
Proof.
  intros Hgood Hbad.
  assert (H1 : get_market_data good sym cache = (Ok (Some md), <[sym := md]> cache)).
  { unfold get_market_data, try_exceptM, lift, modify, mbind, M_bind.
    now rewrite Hgood. }
  rewrite H1. cbn [fst snd]. split; [reflexivity|].
  rewrite (MarketDataClaims.get_market_data_on_raise bad sym _ e Hbad).
  cbn [fst]. now rewrite lookup_insert_eq.
Qed.

Lemma failed_fetch_returns_last_success_witness :
  fetch_snapshot Examples.eth_only_exchange "ETHUSDT" = Ok Examples.eth_snapshot /\
  fetch_snapshot Examples.exchange_down "ETHUSDT" = Raise (ExternalError "timeout") /\
  fst (get_market_data Examples.exchange_down "ETHUSDT"
         (snd (get_market_data Examples.eth_only_exchange "ETHUSDT" ∅)))
  = Ok (Some Examples.eth_snapshot).
Proof.
  assert (H1 : fetch_snapshot Examples.eth_only_exchange "ETHUSDT"
               = Ok Examples.eth_snapshot) by (vm_compute; reflexivity).
  assert (H2 : fetch_snapshot Examples.exchange_down "ETHUSDT"
               = Raise (ExternalError "timeout")) by reflexivity.
  split; [exact H1|]. split; [exact H2|].
  exact (proj2 (failed_fetch_returns_last_success Examples.eth_only_exchange
                  Examples.exchange_down "ETHUSDT" ∅ _ _ H1 H2)).
Defined.

Lemma sum_pos (l : list Q) :
  l <> [] -> Forall (fun x => 0 < x) l -> 0 < Py.sum l.
Proof.
  intros Hne Hl. destruct l as [|x l]; [contradiction|].
  inversion Hl as [|? ? Hx Hl']; subst. unfold Py.sum. cbn [fold_left].
  apply Qlt_le_trans with (0 + x); [lra|].
  apply fold_left_Qplus_ge. apply List.Forall_forall. intros y Hy.
  apply Qlt_le_weak. revert y Hy. now apply List.Forall_forall.
Qed.

(** X6. With at least 14 candles whose closes are read and positive, the
    indicators are always produced, with a positive [sma_20]: the
    division of the last close by the average cannot fail. *)
Theorem indicators_return_on_positive_closes (klines : list kline) (closes : list Q) :
  closes_of klines = Ok closes ->
  (14 <= length klines)%nat ->
  Forall (fun c => 0 < c) closes ->
  exists ind, _calculate_indicators klines = Ok ind /\ 0 < sma_20 ind.
Proof.
  intros Hcl Hlen Hpos. pose proof (closes_of_length _ _ Hcl) as Hl.
  destruct (MarketDataClaims.last_is_Some closes) as [c Hlast]; [lia|].
  assert (Hc : 0 < c).
  { apply last_Some in Hlast as [l' ->]. apply Forall_app in Hpos as [_ Hpos].
    now inversion Hpos. }
  destruct (Nat.lt_ge_cases (length closes) 20) as [Hshort|Hfull].
  - destruct (_calculate_indicators_run klines closes c c) as (rsi & _ & Hrun);
      [lia | assumption | now apply _calculate_sma_short | assumption | lra |].
    eexists. split; [exact Hrun | exact Hc].
  - assert (Hsum : 0 < Py.sum (Py.last_n 20 closes)).
    { apply sum_pos; [|now apply Forall_last_n].
      intros E. apply (f_equal (@length Q)) in E.
      rewrite length_last_n in E by lia. discriminate E. }
    assert (Hsma : 0 < Py.sum (Py.last_n 20 closes) / 20).
    { apply Qlt_shift_div_l; [reflexivity | lra]. }
    destruct (_calculate_indicators_run klines closes
                (Py.sum (Py.last_n 20 closes) / 20) c) as (rsi & _ & Hrun);
      [lia | assumption | now apply _calculate_sma_full | assumption | lra |].
    eexists. split; [exact Hrun | exact Hsma].
Qed.

Lemma indicators_return_on_positive_closes_witness :
  closes_of (map Examples.candle (Examples.rising 24)) = Ok (Examples.rising 24) /\
  Forall (fun c => 0 < c) (Examples.rising 24) /\
  exists ind,
    _calculate_indicators (map Examples.candle (Examples.rising 24)) = Ok ind /\
    0 < sma_20 ind.
Proof.
  assert (Hpos : Forall (fun c => 0 < c) (Examples.rising 24)).
  { repeat constructor. }
  split; [reflexivity|]. split; [exact Hpos|].
  apply (indicators_return_on_positive_closes (map Examples.candle (Examples.rising 24))
           (Examples.rising 24) eq_refl); [simpl; lia | exact Hpos].
Defined.

(** X7. With 14 to 19 candles the average is the last close itself, so
    [price_vs_sma] is zero whatever the closes are. *)
Theorem price_vs_sma_zero_below_20 (klines : list kline) (closes : list Q) (c : Q) :
  closes_of klines = Ok closes ->
  (14 <= length klines < 20)%nat ->
  last closes = Some c -> ~ c == 0 ->
  exists ind, _calculate_indicators klines = Ok ind /\ price_vs_sma ind == 0.
Proof.
  intros Hcl Hlen Hlast Hne.
  pose proof (closes_of_length _ _ Hcl) as Hl.
  destruct (_calculate_indicators_run klines closes c c) as (rsi & _ & Hrun);
    [lia | assumption | apply _calculate_sma_short; [lia | assumption]
    | assumption | assumption |].
  eexists. split; [exact Hrun|]. cbn [price_vs_sma]. field. exact Hne.
Qed.

Lemma price_vs_sma_zero_below_20_witness :
  closes_of (map Examples.candle Examples.step_closes) = Ok Examples.step_closes /\
  last Examples.step_closes = Some 114 /\
  exists ind,
    _calculate_indicators (map Examples.candle Examples.step_closes) = Ok ind /\
    price_vs_sma ind == 0.
Proof.
  split; [reflexivity|]. split; [reflexivity|].
  apply (price_vs_sma_zero_below_20 (map Examples.candle Examples.step_closes)
           Examples.step_closes 114 eq_refl);
    [simpl; lia | reflexivity | discriminate].
Defined.

Lemma last_n_map {A B} (f : A -> B) (n : nat) (l : list A) :
  Py.last_n n (map f l) = map f (Py.last_n n l).
Proof.
  unfold Py.last_n. destruct (Nat.eqb n 0); [reflexivity|].
  now rewrite length_map, skipn_map.
Qed.

Lemma fold_left_gains_zero (l : list Q) (acc : Q) :
  Forall (fun d => d <= 0) l -> fold_left Qplus (map gain l) acc == acc.
Proof.
  revert acc. induction l as [|d l IH]; intros acc Hl; [reflexivity|].
  inversion Hl as [|? ? Hd Hl']; subst. cbn [map fold_left].
  rewrite (IH _ Hl'). unfold gain.
  destruct (Py.gt d 0) eqn:E; [apply gt_spec in E; lra | lra].
Qed.

Lemma fold_left_losses_pos (l : list Q) (acc : Q) :
  Exists (fun d => d < 0) l -> acc < fold_left Qplus (map loss l) acc.
Proof.
  intros Hex. revert acc. induction Hex as [d l Hd | d l _ IH]; intros acc;
    cbn [map fold_left].
  - apply Qlt_le_trans with (acc + loss d).
    + unfold loss. destruct (Py.lt d 0) eqn:E; [lra|].
      apply lt_spec in Hd. congruence.
    + apply fold_left_Qplus_ge. apply List.Forall_forall. intros x Hx.
      apply in_map_iff in Hx as (y & <- & _). apply loss_nonneg.
  - apply Qle_lt_trans with (acc + loss d); [|apply IH].
    pose proof (loss_nonneg d). lra.
Qed.

Lemma round2_zero (x : Q) : x == 0 -> Py.round2 x == 0.
Proof.
  intros Hx. unfold Py.round2, Py.round_half_even.
  assert (Hf : Qfloor (x * 100) = 0%Z).
  { rewrite (Qfloor_comp (x * 100) 0); [reflexivity | rewrite Hx; reflexivity]. }
  rewrite Hf.
  destruct (Py.lt (x * 100 - inject_Z 0) (1 # 2)) eqn:E; [reflexivity|].
  exfalso. assert (H : x * 100 - inject_Z 0 < 1 # 2) by (rewrite Hx; reflexivity).
  apply lt_spec in H. congruence.
Qed.

(** X8. When none of the last 14 deltas is a gain and at least one is a
    loss, the RSI is zero. *)
Theorem rsi_zero_when_only_losses (prices : list Q) :
  (15 <= length prices)%nat ->
  Forall (fun d => d <= 0) (Py.last_n 14 (deltas_of prices)) ->
  Exists (fun d => d < 0) (Py.last_n 14 (deltas_of prices)) ->
  exists r, _calculate_rsi prices 14 = Ok r /\ r == 0.
Proof.
  intros Hlen Hall Hex.
  rewrite _calculate_rsi_computed by assumption.
  eexists. split; [reflexivity|].
  assert (Hg : Spec.avg_gain_14 prices == 0).
  { unfold Spec.avg_gain_14, Py.sum. rewrite last_n_map.
    rewrite (fold_left_gains_zero _ 0 Hall). reflexivity. }
  assert (Hl : 0 < Spec.avg_loss_14 prices).
  { unfold Spec.avg_loss_14, Py.sum. rewrite last_n_map.
    apply Qlt_shift_div_l; [reflexivity|]. rewrite Qmult_0_l.
    now apply fold_left_losses_pos. }
  unfold Spec.rsi_14.
  destruct (Qeq_bool (Spec.avg_loss_14 prices) 0) eqn:E.
  - apply Qeq_bool_eq in E. lra.
  - apply round2_zero. rewrite Hg. field. lra.
Qed.

Lemma rsi_zero_when_only_losses_witness :
  Forall (fun d => d <= 0) (Py.last_n 14 (deltas_of (MoreExamples.falling 15))) /\
  Exists (fun d => d < 0) (Py.last_n 14 (deltas_of (MoreExamples.falling 15))) /\
  exists r, _calculate_rsi (MoreExamples.falling 15) 14 = Ok r /\ r == 0.
Proof.
  assert (H1 : Forall (fun d => d <= 0)
                 (Py.last_n 14 (deltas_of (MoreExamples.falling 15)))).
  { repeat constructor; discriminate. }
  assert (H2 : Exists (fun d => d < 0)
                 (Py.last_n 14 (deltas_of (MoreExamples.falling 15)))).
  { apply Exists_cons_hd. reflexivity. }
  split; [exact H1|]. split; [exact H2|].
  apply (rsi_zero_when_only_losses (MoreExamples.falling 15)); [simpl; lia | exact H1 | exact H2].
Defined.

Lemma deltas_of_skipn (k : nat) (l : list Q) :
  deltas_of (skipn k l) = skipn k (deltas_of l).
Proof.
  revert l. induction k as [|k IH]; intros l; [reflexivity|].
  destruct l as [|a [|b l]]; [reflexivity | now destruct k |].
  change (skipn (S k) (a :: b :: l)) with (skipn k (b :: l)).
  change (deltas_of (a :: b :: l)) with ((b - a) :: deltas_of (b :: l)).
  cbn [skipn]. apply IH.
Qed.

Lemma length_deltas_of (l : list Q) : length (deltas_of l) = (length l - 1)%nat.
Proof.
  induction l as [|a [|b l] IH]; [reflexivity..|].
  change (deltas_of (a :: b :: l)) with ((b - a) :: deltas_of (b :: l)).
  cbn [length] in *. lia.
Qed.

Lemma deltas_of_last_15 (prices : list Q) :
  (15 <= length prices)%nat ->
  Py.last_n 14 (deltas_of (Py.last_n 15 prices)) = Py.last_n 14 (deltas_of prices).
Proof.
  intros Hlen. rewrite last_n_all.
  - unfold Py.last_n. cbn [Nat.eqb]. rewrite deltas_of_skipn, length_deltas_of.
    f_equal. lia.
  - rewrite length_deltas_of, length_last_n by lia. lia.
Qed.

(** X9. The RSI depends on the last 15 prices only: older prices can be
    dropped without changing the result. *)
Theorem rsi_uses_last_15_prices (prices : list Q) :
  (15 <= length prices)%nat ->
  _calculate_rsi prices 14 = _calculate_rsi (Py.last_n 15 prices) 14.
Proof.
  intros Hlen.
  rewrite (_calculate_rsi_computed prices) by assumption.
  rewrite (_calculate_rsi_computed (Py.last_n 15 prices))
    by (rewrite length_last_n; lia).
  f_equal. unfold Spec.rsi_14, Spec.avg_gain_14, Spec.avg_loss_14.
  rewrite !last_n_map, deltas_of_last_15 by assumption. reflexivity.
Qed.

Lemma rsi_uses_last_15_prices_witness :
  (15 <= length (1000%Q :: Examples.rising 15))%nat /\
  _calculate_rsi (1000 :: Examples.rising 15) 14
  = _calculate_rsi (Examples.rising 15) 14.
Proof.
  assert (H : (15 <= length (1000%Q :: Examples.rising 15))%nat) by (simpl; lia).
  split; [exact H|].
  exact (rsi_uses_last_15_prices (1000 :: Examples.rising 15) H).
Defined.

End MarketDataExtras.

(** ** [bot_manager.py]: further properties of the registries *)

Module BotManagerExtras.
Import BotManager.

(** X10. Two successive [create_bot] calls on the mock return consecutive
    ids, each registered under its pair; when the pairs differ both stay
    registered. *)
Theorem mock_create_bot_ids_increase (p1 p2 : string) (st : MockBotManager) :
  exists b1 b2 st1 st2,
    create_bot p1 st = (Ok (Some b1), st1) /\
    create_bot p2 st1 = (Ok (Some b2), st2) /\
    pair b1 = p1 /\ pair b2 = p2 /\
    id b1 = next_bot_id st /\ id b2 = (id b1 + 1)%Z /\
    active_bots st2 !! p2 = Some (id b2) /\
    (p1 <> p2 -> active_bots st2 !! p1 = Some (id b1)) /\
    mock_trades st2 = mock_trades st.
Proof.
  do 4 eexists. split; [reflexivity|]. split; [reflexivity|].
  cbn [pair id active_bots mock_bot_manager mock_active_bots mock_trades next_bot_id].
  repeat split.
  - apply lookup_insert_eq.
  - intros Hne. rewrite lookup_insert_ne by congruence. apply lookup_insert_eq.
Qed.

Lemma for_each_apply (bot_id : Z) (recs : list (gmap string pyval)) (st : MockBotManager) :
  exists st',
    for_each recs (fun r => _ ← apply_ai_recommendations bot_id r; mret tt) st
      = (Ok tt, st') /\
    trades_of st' bot_id = trades_of st bot_id ++ map trade_of recs /\
    (forall other, other <> bot_id -> trades_of st' other = trades_of st other) /\
    active_bots st' = active_bots st.
Proof.
  revert st. induction recs as [|r recs IH]; intros st.
  - exists st. cbn. rewrite app_nil_r. repeat split; reflexivity.
  - destruct (BotManagerClaims.mock_apply_appends bot_id r st)
      as (st1 & Hrun & Happ & Hother & Hbots & _).
    destruct (IH st1) as (st' & Hrest & Happ' & Hother' & Hbots').
    exists st'. cbn [for_each]. unfold mbind at 1, M_bind at 1.
    unfold mbind at 1, M_bind at 1. rewrite Hrun. cbn [mret M_ret].
    split; [exact Hrest|]. split; [|split].
    + rewrite Happ', Happ, <- app_assoc. reflexivity.
    + intros other Hne. rewrite Hother', Hother by assumption. reflexivity.
    + now rewrite Hbots'.
Qed.

(** X11. The history of a mock bot only grows: after applying a list of
    recommendations to a bot, its history is the old one followed by one
    record per recommendation, in order; the histories of the other bots
    are untouched, and the statistics count and show exactly that. *)
Theorem mock_history_is_append_only (bot_id : Z)
    (recs : list (gmap string pyval)) (st : MockBotManager) :
  exists st',
    for_each recs (fun r => _ ← apply_ai_recommendations bot_id r; mret tt) st
      = (Ok tt, st') /\
    trades_of st' bot_id = trades_of st bot_id ++ map trade_of recs /\
    (forall other, other <> bot_id -> trades_of st' other = trades_of st other) /\
    fst (get_bot_stats bot_id st')
    = Ok (Some {| profit := "0.00%";
                  total_trades := length (trades_of st bot_id) + length recs;
                  last_trade := last (trades_of st bot_id ++ map trade_of recs) |}).
Proof.
  destruct (for_each_apply bot_id recs st) as (st' & Hrun & Happ & Hother & _).
  exists st'. split; [exact Hrun|]. split; [exact Happ|]. split; [exact Hother|].
  cbn [get_bot_stats mock_bot_manager]. unfold mock_get_bot_stats. cbn [fst].
  rewrite Happ, length_app, length_map. reflexivity.
Qed.

Section Real.
Context {R : Type}.
Variable MAX_SAFETY_ORDERS : Z.
Variable update_bot_settings : Z -> BotSettings -> M R bool.

(** X12. The remote variant declines without reaching the backend when
    [should_trade] is missing or falsy, or when [take_profit] or
    [stop_loss] is missing or falsy (zero included): it returns [False]
    and the state is untouched, whatever the backend would do. *)
Theorem real_apply_declines_incomplete (bot_id : Z)
    (recommendations : gmap string pyval) (st : R) :
  truthy (dict_get recommendations "should_trade" (PBool false)) = false \/
  truthy (dict_get recommendations "take_profit" PNone) = false \/
  truthy (dict_get recommendations "stop_loss" PNone) = false ->
  real_apply_ai_recommendations MAX_SAFETY_ORDERS update_bot_settings
    bot_id recommendations st = (Ok false, st).
Proof.
  intros H. unfold real_apply_ai_recommendations, try_exceptM.
  destruct (truthy (dict_get recommendations "should_trade" (PBool false)));
    [|reflexivity].
  cbn [negb]. destruct H as [H|[H|H]]; [discriminate| |]; rewrite H;
    cbn [negb orb]; [reflexivity|].
  rewrite orb_true_r. reflexivity.
Qed.

(** X14. A complete recommendation whose [average_confidence] is not a
    number (a string, or [None]) never reaches the backend: the comparison
    with 85 raises, and the method returns [False]. *)
Theorem real_apply_rejects_textual_confidence (bot_id : Z)
    (recommendations : gmap string pyval) (st : R) :
  truthy (dict_get recommendations "should_trade" (PBool false)) = true ->
  truthy (dict_get recommendations "take_profit" PNone) = true ->
  truthy (dict_get recommendations "stop_loss" PNone) = true ->
  (dict_get recommendations "average_confidence" (PNum 0) = PNone \/
   exists s, dict_get recommendations "average_confidence" (PNum 0) = PStr s) ->
  real_apply_ai_recommendations MAX_SAFETY_ORDERS update_bot_settings
    bot_id recommendations st = (Ok false, st).
Proof.
  intros Hst Htp Hsl Hconf. unfold real_apply_ai_recommendations, try_exceptM.
  rewrite Hst, Htp, Hsl. cbn [negb orb].
  destruct Hconf as [Hc|[s Hc]]; rewrite Hc; reflexivity.
Qed.

End Real.

Lemma real_apply_declines_incomplete_witness :
  truthy (dict_get MoreExamples.no_take_profit "take_profit" PNone) = false /\
  real_apply_ai_recommendations 5 MoreExamples.recording_backend 7
    MoreExamples.no_take_profit [] = (Ok false, []).
Proof.
  assert (H : truthy (dict_get MoreExamples.no_take_profit "take_profit" PNone) = false)
    by (vm_compute; reflexivity).
  split; [exact H|].
  apply (real_apply_declines_incomplete 5 MoreExamples.recording_backend 7
           MoreExamples.no_take_profit []).
  right. left. exact H.
Defined.

(** X13. In the repository the remote variant never applies anything:
    [update_bot_settings] is not defined, so for every recommendation,
    complete or not, the method returns [False] and leaves the manager as
    it was. *)
Theorem repository_apply_always_declines {R : Type} (max_orders bot_id : Z)
    (recommendations : gmap string pyval) (st : R) :
  repository_apply_ai_recommendations max_orders bot_id recommendations st
  = (Ok false, st).
Proof.
  unfold repository_apply_ai_recommendations, real_apply_ai_recommendations,
    undefined_update_bot_settings, try_exceptM.
  destruct (truthy (dict_get recommendations "should_trade" (PBool false)));
    [|reflexivity].
  cbn [negb].
  destruct (negb (truthy (dict_get recommendations "take_profit" PNone))
            || negb (truthy (dict_get recommendations "stop_loss" PNone)));
    [reflexivity|].
  unfold lift, mbind, M_bind.
  destruct (exceeds_85 (dict_get recommendations "average_confidence" (PNum 0)));
    reflexivity.
Qed.

(** On a complete recommendation the call is reached and is what fails. *)
Example repository_apply_on_complete_recommendation :
  repository_apply_ai_recommendations 5 7 MoreExamples.trade_recommendation tt
  = (Ok false, tt).
Proof. vm_compute. reflexivity. Qed.

Lemma real_apply_rejects_textual_confidence_witness :
  dict_get MoreExamples.textual_confidence "average_confidence" (PNum 0) = PStr "high" /\
  real_apply_ai_recommendations 5 MoreExamples.recording_backend 7
    MoreExamples.textual_confidence [] = (Ok false, []).
Proof.
  assert (Hc : dict_get MoreExamples.textual_confidence "average_confidence" (PNum 0)
               = PStr "high") by (vm_compute; reflexivity).
  split; [exact Hc|].
  apply (real_apply_rejects_textual_confidence 5 MoreExamples.recording_backend 7
           MoreExamples.textual_confidence []);
    [vm_compute; reflexivity | vm_compute; reflexivity | vm_compute; reflexivity|].
  right. exists "high". exact Hc.
Defined.

End BotManagerExtras.

(** ** [websocket_manager.py]: further properties of the manager *)

Module WebsocketExtras.
Import BinanceWebsocketManager Streaming.

Lemma subscribe_symbol_spec (sym : string) (st : State) :
  exists st',
    subscribe_symbol sym st = (Ok tt, st') /\
    subscribed_symbols st' = {[sym]} ∪ subscribed_symbols st /\
    (forall other, other <> sym -> market_data st' !! other = market_data st !! other) /\
    (sym ∈ subscribed_symbols st -> market_data st' !! sym = market_data st !! sym) /\
    (sym ∉ subscribed_symbols st -> market_data st' !! sym = Some (placeholder sym)).
Proof.
  unfold subscribe_symbol, get_state, modify, mbind, M_bind.
  destruct (decide (sym ∈ subscribed_symbols st)) as [Hin|Hnot].
  - exists st. split; [reflexivity|]. split; [set_solver|].
    repeat split; try reflexivity. contradiction.
  - eexists. split; [reflexivity|]. cbn. split; [reflexivity|]. split; [|split].
    + intros other Hne. now rewrite lookup_insert_ne.
    + contradiction.
    + intros _. now rewrite lookup_insert_eq.
Qed.

Lemma for_each_subscribe (symbols : list string) (st : State) :
  exists st',
    for_each symbols subscribe_symbol st = (Ok tt, st') /\
    subscribed_symbols st' = subscribed_symbols st ∪ list_to_set symbols /\
    (forall sym, sym ∈ subscribed_symbols st ->
       market_data st' !! sym = market_data st !! sym) /\
    (forall sym, sym ∈ symbols -> sym ∉ subscribed_symbols st ->
       market_data st' !! sym = Some (placeholder sym)) /\
    (forall sym, sym ∉ symbols -> market_data st' !! sym = market_data st !! sym).
Proof.
  revert st. induction symbols as [|x symbols IH]; intros st.
  - exists st. split; [reflexivity|]. split; [set_solver|].
    repeat split; try reflexivity. intros sym H. inversion H.
  - destruct (subscribe_symbol_spec x st) as (st1 & Hx & Hsub1 & Hoth1 & Hold1 & Hnew1).
    destruct (IH st1) as (st' & Hrest & Hsub & Hold & Hnew & Hout).
    exists st'. cbn [for_each]. unfold mbind, M_bind. rewrite Hx.
    split; [exact Hrest|]. split; [rewrite Hsub, Hsub1; set_solver|].
    split; [|split].
    + intros sym Hin. rewrite Hold by (rewrite Hsub1; set_solver).
      destruct (decide (sym = x)) as [->|Hne]; [now apply Hold1 | now apply Hoth1].
    + intros sym Hin Hnot. destruct (decide (sym = x)) as [->|Hne].
      * rewrite Hold by (rewrite Hsub1; set_solver). now apply Hnew1.
      * apply elem_of_cons in Hin as [->|Hin]; [contradiction|].
        apply Hnew; [assumption|]. rewrite Hsub1. set_solver.
    + intros sym Hnot. apply not_elem_of_cons in Hnot as [Hne Hnot].
      rewrite Hout by assumption. now apply Hoth1.
Qed.

(** X15. [subscribe_symbols] never raises; afterwards the given symbols
    are subscribed in addition to the old ones, a symbol that was already
    subscribed keeps its live state, and a new one gets an entry without
    price. *)
Theorem subscribe_symbols_keeps_live_state (symbols : list string) (st : State) :
  exists st',
    subscribe_symbols symbols st = (Ok tt, st') /\
    subscribed_symbols st' = subscribed_symbols st ∪ list_to_set symbols /\
    (forall sym, sym ∈ subscribed_symbols st ->
       market_data st' !! sym = market_data st !! sym) /\
    (forall sym, sym ∈ symbols -> sym ∉ subscribed_symbols st ->
       market_data st' !! sym = Some (placeholder sym)).
Proof.
  destruct (for_each_subscribe symbols st) as (st' & Hrun & Hsub & Hold & Hnew & _).
  exists st'. unfold subscribe_symbols, try_exceptM. rewrite Hrun.
  repeat split; assumption.
Qed.

Lemma remove_first_snoc (x : nat) (l : list nat) :
  x ∉ l -> remove_first x (l ++ [x]) = l.
Proof.
  induction l as [|y l IH]; intros Hnot; cbn.
  - now rewrite Nat.eqb_refl.
  - apply not_elem_of_cons in Hnot as [Hne Hnot].
    destruct (Nat.eqb_spec x y) as [->|_]; [contradiction|]. now rewrite IH.
Qed.

Lemma elem_of_remove_first (x y : nat) (l : list nat) :
  y ∈ remove_first x l -> y ∈ l.
Proof.
  induction l as [|z l IH]; cbn; [auto|].
  destruct (Nat.eqb x z); intros H; [now right|].
  apply elem_of_cons in H as [->|H]; [left | right; auto].
Qed.

Lemma remove_first_NoDup (x : nat) (l : list nat) :
  NoDup l -> NoDup (remove_first x l) /\ x ∉ remove_first x l.
Proof.
  induction 1 as [|z l Hz Hl IH]; cbn.
  - split; [constructor | apply not_elem_of_nil].
  - destruct (Nat.eqb_spec x z) as [->|Hne]; [now split|].
    destruct IH as [IH1 IH2]. split.
    + constructor; [|assumption]. intros H. apply Hz. eapply elem_of_remove_first, H.
    + apply not_elem_of_cons. split; assumption.
Qed.

(** X16. The list of callbacks never holds a callback twice: registering
    keeps it duplicate-free and is a no-op for a callback already
    registered; removing a callback leaves none of it and keeps the list
    duplicate-free; registering a new callback and removing it again gives
    the list back. *)
Theorem price_callbacks_stay_distinct (cb : nat) (st : State) :
  NoDup (price_callbacks st) ->
  let added := snd (add_price_callback cb st) in
  let removed := snd (remove_price_callback cb st) in
  NoDup (price_callbacks added) /\ (cb ∈ price_callbacks added) /\
  (cb ∈ price_callbacks st -> added = st) /\
  NoDup (price_callbacks removed) /\ (cb ∉ price_callbacks removed) /\
  (cb ∉ price_callbacks st ->
     price_callbacks (snd (remove_price_callback cb added)) = price_callbacks st).
Proof.
  intros Hnd. cbv zeta. unfold add_price_callback, remove_price_callback, modify.
  cbn [snd].
  destruct (decide (cb ∈ price_callbacks st)) as [Hin|Hnot].
  - destruct (remove_first_NoDup cb _ Hnd) as [H1 H2].
    repeat split; try assumption; try reflexivity. contradiction.
  - cbn [price_callbacks set_price_callbacks].
    rewrite decide_True by set_solver. cbn [price_callbacks set_price_callbacks].
    repeat split; try assumption.
    + apply NoDup_app. repeat split; [assumption | | apply NoDup_singleton].
      intros x Hx Hx'. apply list_elem_of_singleton in Hx'. subst. contradiction.
    + set_solver.
    + contradiction.
    + intros _. now apply remove_first_snoc.
Qed.

Lemma price_callbacks_stay_distinct_witness :
  NoDup (price_callbacks init) /\
  price_callbacks (snd (add_price_callback 3 init)) = [3%nat] /\
  price_callbacks (snd (remove_price_callback 3 (snd (add_price_callback 3 init)))) = [].
Proof.
  assert (H : NoDup (price_callbacks init)) by constructor.
  split; [exact H|]. split; [reflexivity|].
  destruct (price_callbacks_stay_distinct 3 init H) as (_ & _ & _ & _ & _ & Hrt).
  apply Hrt. apply not_elem_of_nil.
Defined.

Section Prices.
Variable env : Env.

Lemma get_latest_price_prefers_live_state_aux (sym : string) (st : State) (p : Q) :
  live_price sym st = Some p ->
  get_latest_price env sym st = (Ok (Some p), st).
Proof.
  intros H. unfold get_latest_price, try_exceptM, get_state, mbind, M_bind.
  now rewrite H.
Qed.

Lemma store_price_spec (sym : string) (price : Q) (st : State) :
  (forall other, other <> sym ->
     market_data (store_price sym price st) !! other = market_data st !! other) /\
  (is_Some (market_data st !! sym) -> live_price sym (store_price sym price st) = Some price) /\
  (market_data st !! sym = None -> store_price sym price st = st).
Proof.
  unfold store_price, live_price.
  destruct (market_data st !! sym) as [entry|] eqn:E.
  - cbn. split; [|split].
    + intros other Hne. now rewrite lookup_insert_ne.
    + intros _. now rewrite lookup_insert_eq.
    + discriminate.
  - split; [reflexivity|]. split; [intros [? ?]; discriminate | reflexivity].
Qed.

(** X17. [get_latest_price] never raises.  When the live state of the
    symbol has a price it returns that price and changes nothing, whatever
    the exchange would answer.  Otherwise it answers [None] when there is
    no exchange client or the exchange fails or its ticker has no price;
    when the exchange answers it returns that price and stores it only in
    an entry that already exists, so a symbol that is not subscribed gets
    no entry, and for a subscribed one the next call answers from the live
    state. *)
Theorem get_latest_price_behaviour (sym : string) (st : State) :
  (forall p, live_price sym st = Some p ->
     get_latest_price env sym st = (Ok (Some p), st)) /\
  (live_price sym st = None ->
     (binance_client st = false -> get_latest_price env sym st = (Ok None, st)) /\
     (forall e, get_ticker env sym = Raise e ->
        get_latest_price env sym st = (Ok None, st)) /\
     (forall ticker, get_ticker env sym = Ok ticker -> ticker !! "lastPrice" = None ->
        get_latest_price env sym st = (Ok None, st)) /\
     (forall ticker price,
        binance_client st = true ->
        get_ticker env sym = Ok ticker -> ticker !! "lastPrice" = Some price ->
        exists st',
          get_latest_price env sym st = (Ok (Some price), st') /\
          (market_data st !! sym = None -> st' = st) /\
          (is_Some (market_data st !! sym) ->
             get_latest_price env sym st' = (Ok (Some price), st')))).
Proof.
  split; [intros p; apply get_latest_price_prefers_live_state_aux|].
  intros Hlive. unfold get_latest_price at 1 2 3 4, try_exceptM, get_state, lift, modify.
  unfold mbind, M_bind. rewrite Hlive.
  split; [|split; [|split]].
  - intros Hc. now rewrite Hc.
  - intros e He. rewrite He. now destruct (binance_client st).
  - intros ticker Ht Hk. rewrite Ht. unfold Py.getitem. rewrite Hk.
    now destruct (binance_client st).
  - intros ticker price Hc Ht Hk. rewrite Hc, Ht. unfold Py.getitem. rewrite Hk.
    destruct (store_price_spec sym price st) as (_ & Hsome & Hnone).
    eexists. split; [reflexivity|]. split; [exact Hnone|].
    intros His. apply get_latest_price_prefers_live_state_aux. now apply Hsome.
Qed.

End Prices.

Lemma get_latest_price_behaviour_witness :
  live_price "BTCUSDT" Examples.streaming = None /\
  binance_client Examples.streaming = true /\
  is_Some (market_data Examples.streaming !! "BTCUSDT") /\
  exists st',
    get_latest_price Examples.flaky "BTCUSDT" Examples.streaming = (Ok (Some 16%Q), st') /\
    get_latest_price Examples.flaky "BTCUSDT" st' = (Ok (Some 16%Q), st').
Proof.
  assert (H1 : live_price "BTCUSDT" Examples.streaming = None) by (vm_compute; reflexivity).
  assert (H2 : binance_client Examples.streaming = true) by reflexivity.
  assert (H3 : is_Some (market_data Examples.streaming !! "BTCUSDT")).
  { eexists. vm_compute. reflexivity. }
  split; [exact H1|]. split; [exact H2|]. split; [exact H3|].
  destruct (get_latest_price_behaviour Examples.flaky "BTCUSDT" Examples.streaming)
    as (_ & H).
  destruct (H H1) as (_ & _ & _ & Hfetch).
  destruct (Hfetch Examples.sample_ticker 16%Q H2 eq_refl) as (st' & Hrun & _ & Hnext);
    [vm_compute; reflexivity|].
  exists st'. split; [exact Hrun | exact (Hnext H3)].
Defined.

Section Lifecycle.
Variable env : Env.

Lemma set_is_running_same (st : State) (b : bool) :
  is_running st = b -> set_is_running b st = st.
Proof. intros <-. now destruct st. Qed.

(** X18. [start] does nothing while the manager runs, so starting twice
    schedules one task, not two.  When the exchange client cannot be
    created, [start] raises that error, schedules nothing and leaves the
    manager stopped. *)
Theorem start_once_or_not_at_all (st : State) :
  (is_running st = true -> start env st = (Ok tt, st)) /\
  (is_running st = false -> client_create env = Ok tt ->
     exists st1,
       start env st = (Ok tt, st1) /\ is_running st1 = true /\
       tasks st1 = tasks st ++ [collect_market_data_task] /\
       start env st1 = (Ok tt, st1)) /\
  (forall e, is_running st = false -> client_create env = Raise e ->
     start env st = (Raise e, st)).
Proof.
  unfold start at 1 2 4, get_state, try_exceptM, modify, lift.
  unfold mbind, M_bind. split; [|split].
  - intros H. now rewrite H.
  - intros H Hc. rewrite H. cbn. rewrite Hc. eexists.
    split; [reflexivity|]. split; [reflexivity|]. split; [reflexivity|].
    unfold start, get_state, mbind, M_bind. reflexivity.
  - intros e H Hc. rewrite H. cbn. rewrite Hc. f_equal.
    destruct st; cbn in *. now subst.
Qed.

End Lifecycle.

Lemma start_once_or_not_at_all_witness :
  is_running init = false /\
  client_create MoreExamples.no_client = Raise (ExternalError "no network") /\
  start MoreExamples.no_client init = (Raise (ExternalError "no network"), init) /\
  client_create MoreExamples.steady = Ok tt /\
  tasks (snd (start MoreExamples.steady (snd (start MoreExamples.steady init))))
    = [collect_market_data_task].
Proof.
  destruct (start_once_or_not_at_all MoreExamples.no_client init) as (_ & _ & Hfail).
  destruct (start_once_or_not_at_all MoreExamples.steady init) as (_ & Hok & _).
  split; [reflexivity|]. split; [reflexivity|].
  split; [exact (Hfail _ eq_refl eq_refl)|]. split; [reflexivity|].
  destruct (Hok eq_refl eq_refl) as (st1 & H1 & _ & Ht & H2).
  rewrite H1. cbn [snd]. rewrite H2. cbn [snd]. exact Ht.
Defined.

Section Stop.
Variable env : Env.
Variable close : conn -> result unit.
Variable close_connection : result unit.

Lemma close_all_state (order : list conn) (st : State) :
  for_each order
    (fun connection => try_exceptM (lift (close connection)) (fun _ => mret tt)) st
  = (Ok tt, st).
Proof.
  induction order as [|c order IH]; [reflexivity|].
  cbn [for_each]. unfold mbind, M_bind, try_exceptM, lift.
  destruct (close c); exact IH.
Qed.

(** X19. When the manager has no exchange client, or closing it succeeds,
    [stop] returns normally whatever the closing of the client sockets
    does: the manager is stopped, has no task and no connection left, and
    keeps its subscriptions, live state and callbacks. *)
Theorem stop_clears_tasks_and_connections (st : State) :
  binance_client st = false \/ close_connection = Ok tt ->
  exists st',
    stop env close close_connection st = (Ok tt, st') /\
    is_running st' = false /\ tasks st' = [] /\ active_connections st' = ∅ /\
    subscribed_symbols st' = subscribed_symbols st /\
    market_data st' = market_data st /\
    price_callbacks st' = price_callbacks st.
Proof.
  intros H. unfold stop, try_exceptM, get_state, modify.
  unfold mbind at 1, M_bind at 1. unfold mbind at 1, M_bind at 1.
  unfold mbind at 1, M_bind at 1. rewrite close_all_state.
  unfold mbind, M_bind, lift. cbn [binance_client set_is_running].
  destruct H as [H|H].
  - rewrite H. cbn. eexists. repeat split; reflexivity.
  - rewrite H. destruct (binance_client st); cbn; eexists; repeat split; reflexivity.
Qed.

(** X20. When closing the exchange client raises, [stop] raises that
    error after the sockets were closed: the manager is marked stopped,
    and its tasks and its connections are not cleared. *)
Theorem stop_reraises_client_failure (st : State) (e : exn) :
  binance_client st = true -> close_connection = Raise e ->
  stop env close close_connection st = (Raise e, set_is_running false st).
Proof.
  intros Hc He. unfold stop, try_exceptM, get_state, modify.
  unfold mbind at 1, M_bind at 1. unfold mbind at 1, M_bind at 1.
  unfold mbind at 1, M_bind at 1. rewrite close_all_state.
  unfold mbind, M_bind, lift. cbn [binance_client set_is_running].
  now rewrite Hc, He.
Qed.

End Stop.

Lemma stop_clears_tasks_and_connections_witness :
  exists st',
    stop Examples.flaky (fun _ => Raise (ExternalError "already closed")) (Ok tt)
      Examples.streaming = (Ok tt, st') /\
    is_running st' = false /\ tasks st' = [] /\ active_connections st' = ∅ /\
    subscribed_symbols st' = subscribed_symbols Examples.streaming.
Proof.
  destruct (stop_clears_tasks_and_connections Examples.flaky
              (fun _ => Raise (ExternalError "already closed")) (Ok tt)
              Examples.streaming (or_intror eq_refl))
    as (st' & H1 & H2 & H3 & H4 & H5 & _).
  exists st'. repeat split; assumption.
Defined.

Lemma stop_reraises_client_failure_witness :
  binance_client Examples.streaming = true /\
  stop Examples.flaky (fun _ => Ok tt) (Raise (ExternalError "timeout"))
    Examples.streaming
  = (Raise (ExternalError "timeout"), set_is_running false Examples.streaming) /\
  tasks (set_is_running false Examples.streaming) = [collect_market_data_task].
Proof.
  split; [reflexivity|]. split; [|reflexivity].
  exact (stop_reraises_client_failure Examples.flaky (fun _ => Ok tt)
           (Raise (ExternalError "timeout")) Examples.streaming _ eq_refl eq_refl).
Defined.

Section Sweeps.
Variable env : Env.

(** X21. For any live set, [broadcast] never raises; it delivers the
    payload once to each connection whose delivery succeeds, keeps exactly
    those connections, and changes no other field: the live state, the
    callbacks, the running flag, the exchange client, the tasks, the update
    times and the subscriptions are as before. *)
Theorem broadcast_keeps_the_reachable (data : Tick) (st : State) :
  iteration_ok env ->
  exists delivered st',
    broadcast env data st = (Ok tt, st') /\
    (forall c, c ∈ active_connections st' <->
               c ∈ active_connections st /\ delivers env data c) /\
    sent st' = sent st ++ delivered /\
    delivered ≡ₚ (fun c => (c, data)) <$>
                   filter (delivers env data) (elements (active_connections st)) /\
    market_data st' = market_data st /\
    price_callbacks st' = price_callbacks st /\
    is_running st' = is_running st /\
    binance_client st' = binance_client st /\
    tasks st' = tasks st /\
    last_ws_update st' = last_ws_update st /\
    subscribed_symbols st' = subscribed_symbols st.
Proof.
  intros [Hiter _]. rewrite WebsocketClaims.broadcast_spec.
  do 2 eexists. split; [reflexivity|]. cbn. split; [|split; [reflexivity|split]].
  - intros c. rewrite elem_of_difference, elem_of_list_to_set, list_elem_of_filter.
    rewrite (Hiter (active_connections st)), elem_of_elements.
    destruct (decide (delivers env data c)); tauto.
  - now rewrite (Hiter (active_connections st)).
  - repeat split; reflexivity.
Qed.

(** X22. [connect] registers a socket only once it is accepted: when
    [accept] raises, the error is passed on and the live set is
    unchanged.  For an accepted socket that was not registered before, the
    removal at the end of its channel gives the earlier state back. *)
Theorem connect_registers_accepted_sockets (websocket : conn) (st : State) :
  (forall e, accept env websocket = Raise e ->
     connect_open env websocket st = (Raise e, st)) /\
  (accept env websocket = Ok tt ->
     exists st1,
       connect_open env websocket st = (Ok tt, st1) /\
       (websocket ∈ active_connections st1) /\
       (websocket ∉ active_connections st -> connect_closed websocket st1 = (Ok tt, st))).
Proof.
  unfold connect_open, lift, modify, mbind, M_bind. split.
  - intros e He. now rewrite He.
  - intros Hok. rewrite Hok. eexists. split; [reflexivity|].
    cbn [active_connections set_active_connections]. split; [set_solver|].
    intros Hnot. rewrite WebsocketClaims.connect_closed_present by (cbn; set_solver).
    f_equal. destruct st as [act md cbs run cl ts lu subs snt].
    unfold set_active_connections. cbn in *. f_equal. set_solver.
Qed.

(** X23. An update of a symbol that raises has written nothing: the
    live state, the connections and the record of deliveries are as
    before. *)
Theorem failed_update_writes_nothing (sym : string) (st st' : State) (e : exn) :
  update_symbol env sym st = (Raise e, st') -> st' = st.
Proof.
  unfold update_symbol, lift, modify. unfold mbind, M_bind.
  destruct (get_ticker env sym) as [ticker|]; [|now inversion 1].
  destruct (Py.getitem ticker "lastPrice"); [|now inversion 1].
  destruct (Py.getitem ticker "priceChangePercent"); [|now inversion 1].
  destruct (Py.getitem ticker "volume"); [|now inversion 1].
  rewrite WebsocketClaims.notify_state, WebsocketClaims.broadcast_spec. discriminate.
Qed.

Lemma update_symbol_ok (sym : string) (st : State) (tick : Tick) :
  fresh_tick env sym = Some tick ->
  exists st',
    update_symbol env sym st = (Ok tt, st') /\
    market_data st' = <[sym := tick]> (market_data st) /\
    subscribed_symbols st' = subscribed_symbols st.
Proof.
  unfold fresh_tick, update_symbol, lift, modify, Py.getitem. unfold mbind, M_bind.
  destruct (get_ticker env sym) as [ticker|]; [|discriminate].
  destruct (ticker !! "lastPrice"); [|discriminate].
  destruct (ticker !! "priceChangePercent"); [|discriminate].
  destruct (ticker !! "volume"); [|discriminate].
  intros [= <-]. rewrite WebsocketClaims.notify_state, WebsocketClaims.broadcast_spec.
  eexists. split; [reflexivity|]. split; reflexivity.
Qed.

Lemma for_each_update_ok (order : list string) (st : State) :
  (forall sym, sym ∈ order -> is_Some (fresh_tick env sym)) ->
  exists st',
    for_each order (update_symbol env) st = (Ok tt, st') /\
    (forall sym, sym ∈ order -> market_data st' !! sym = fresh_tick env sym) /\
    (forall sym, sym ∉ order -> market_data st' !! sym = market_data st !! sym) /\
    subscribed_symbols st' = subscribed_symbols st.
Proof.
  revert st. induction order as [|x order IH]; intros st Hall.
  - exists st. repeat split; try reflexivity. intros sym H. inversion H.
  - destruct (Hall x) as [tick Htick]; [left|].
    destruct (update_symbol_ok x st tick Htick) as (st1 & Hx & Hmd & Hsub1).
    destruct (IH st1) as (st' & Hrest & Hin & Hout & Hsub).
    { intros sym Hs. apply Hall. now right. }
    exists st'. cbn [for_each]. unfold mbind, M_bind. rewrite Hx.
    split; [exact Hrest|]. split; [|split].
    + intros sym Hs. destruct (decide (sym ∈ order)) as [Ho|Ho]; [now apply Hin|].
      apply elem_of_cons in Hs as [->|Hs]; [|contradiction].
      rewrite Hout by assumption. rewrite Hmd, lookup_insert_eq. now rewrite Htick.
    + intros sym Hs. apply not_elem_of_cons in Hs as [Hne Hs].
      rewrite Hout by assumption. rewrite Hmd. now rewrite lookup_insert_ne.
    + now rewrite Hsub.
Qed.

(** X24. When the ticker of every subscribed symbol can be fetched and
    has its three fields, one iteration refreshes the live state of every
    subscribed symbol and announces a sleep of 1 second; callbacks that
    raise change nothing of this. *)
Theorem collect_iteration_refreshes_every_symbol (st : State) :
  iteration_ok env ->
  (forall sym, sym ∈ subscribed_symbols st -> is_Some (fresh_tick env sym)) ->
  exists st',
    collect_iteration env st = (Ok 1%nat, st') /\
    (forall sym, sym ∈ subscribed_symbols st ->
       market_data st' !! sym = fresh_tick env sym) /\
    (forall sym, sym ∉ subscribed_symbols st ->
       market_data st' !! sym = market_data st !! sym) /\
    subscribed_symbols st' = subscribed_symbols st.
Proof.
  intros [_ Hiter] Hall.
  assert (Hmem : forall sym, sym ∈ symbol_iter env (subscribed_symbols st)
                             <-> sym ∈ subscribed_symbols st).
  { intros sym. now rewrite (Hiter (subscribed_symbols st)), elem_of_elements. }
  destruct (for_each_update_ok (symbol_iter env (subscribed_symbols st)) st)
    as (st' & Hrun & Hin & Hout & Hsub).
  { intros sym Hs. apply Hall. now apply Hmem. }
  exists st'. unfold collect_iteration, try_exceptM, get_state.
  unfold mbind at 1, M_bind at 1. unfold mbind at 1, M_bind at 1. rewrite Hrun.
  split; [reflexivity|]. split; [|split; [|exact Hsub]].
  - intros sym Hs. apply Hin. now apply Hmem.
  - intros sym Hs. apply Hout. now rewrite Hmem.
Qed.

End Sweeps.

Lemma broadcast_keeps_the_reachable_witness :
  iteration_ok Examples.flaky /\
  exists st',
    broadcast Examples.flaky Examples.btc_tick Examples.three_clients = (Ok tt, st') /\
    (2%nat ∉ active_connections st') /\ (1%nat ∈ active_connections st').
Proof.
  assert (Hiter : iteration_ok Examples.flaky) by (split; intros s; reflexivity).
  split; [exact Hiter|].
  destruct (broadcast_keeps_the_reachable Examples.flaky Examples.btc_tick
              Examples.three_clients Hiter) as (delivered & st' & Hrun & Hmem & _).
  exists st'. split; [exact Hrun|]. split.
  - intros H. apply Hmem in H as [_ H]. discriminate H.
  - apply Hmem. split; [|reflexivity]. cbn. set_solver.
Defined.

Lemma connect_registers_accepted_sockets_witness :
  accept MoreExamples.no_client 4%nat = Raise (ExternalError "handshake") /\
  connect_open MoreExamples.no_client 4%nat init = (Raise (ExternalError "handshake"), init) /\
  accept MoreExamples.steady 4%nat = Ok tt /\
  (4%nat ∉ active_connections init) /\
  connect_closed 4%nat (snd (connect_open MoreExamples.steady 4%nat init)) = (Ok tt, init).
Proof.
  destruct (connect_registers_accepted_sockets MoreExamples.no_client 4%nat init)
    as (Hfail & _).
  destruct (connect_registers_accepted_sockets MoreExamples.steady 4%nat init)
    as (_ & Hok).
  assert (Hnot : 4%nat ∉ active_connections init) by (cbn; set_solver).
  split; [reflexivity|]. split; [exact (Hfail _ eq_refl)|].
  split; [reflexivity|]. split; [exact Hnot|].
  destruct (Hok eq_refl) as (st1 & H1 & _ & Hback). rewrite H1. cbn [snd].
  exact (Hback Hnot).
Defined.

Lemma failed_update_writes_nothing_witness :
  update_symbol Examples.flaky "ETHUSDT" Examples.streaming
    = (Raise (ExternalError "timeout"), Examples.streaming) /\
  Examples.streaming = Examples.streaming.
Proof.
  assert (H : update_symbol Examples.flaky "ETHUSDT" Examples.streaming
              = (Raise (ExternalError "timeout"), Examples.streaming)) by reflexivity.
  split; [exact H|].
  exact (failed_update_writes_nothing Examples.flaky "ETHUSDT" _ _ _ H).
Defined.

Lemma collect_iteration_refreshes_every_symbol_witness :
  iteration_ok MoreExamples.steady /\
  (forall sym, sym ∈ subscribed_symbols Examples.streaming ->
     is_Some (fresh_tick MoreExamples.steady sym)) /\
  exists st',
    collect_iteration MoreExamples.steady Examples.streaming = (Ok 1%nat, st') /\
    market_data st' !! "ETHUSDT" = fresh_tick MoreExamples.steady "ETHUSDT".
Proof.
  assert (Hiter : iteration_ok MoreExamples.steady) by (split; intros s; reflexivity).
  assert (Hall : forall sym, sym ∈ subscribed_symbols Examples.streaming ->
                   is_Some (fresh_tick MoreExamples.steady sym)).
  { intros sym _. eexists. vm_compute. reflexivity. }
  split; [exact Hiter|]. split; [exact Hall|].
  destruct (collect_iteration_refreshes_every_symbol MoreExamples.steady
              Examples.streaming Hiter Hall) as (st' & Hrun & Hin & _).
  exists st'. split; [exact Hrun|]. apply Hin. vm_compute. reflexivity.
Defined.

End WebsocketExtras.

(** ** [main.py]: further properties of the orchestrator *)

Module TradingBotExtras.
Import MarketDataManager BotManager TradingBot.

Section Pairs.
Context {S Stats : Type} `{!BaseBotManager S Stats}.
Variable env : Env.

Lemma lookup_bot_spec (p : string) (st : TradingBot.State S) :
  lookup_bot p st
  = (Ok (match active_bots (bot_manager st) !! p with
         | Some bot_id => if Z.eqb bot_id 0 then None else Some bot_id
         | None => None
         end), st).
Proof.
  unfold lookup_bot, get_state, mbind, M_bind.
  destruct (active_bots (bot_manager st) !! p) as [b|]; [destruct (Z.eqb b 0)|];
    reflexivity.
Qed.

(** X25. [log_status] never raises.  When the statistics of the bot come
    back as [None], no status record is emitted and an [AttributeError] is
    logged; when fetching them raises, that error is logged. *)
Theorem log_status_contains_missing_stats (p : string) (md : MarketSnapshot)
    (a : gmap string pyval) (st : TradingBot.State S) :
  fst (log_status p md a st) = Ok tt /\
  (forall bot_id b',
     active_bots (bot_manager st) !! p = Some bot_id -> bot_id <> 0%Z ->
     get_bot_stats bot_id (bot_manager st) = (Ok None, b') ->
     log (snd (log_status p md a st)) = log st ++ [ErrorLoggingStatus AttributeError]) /\
  (forall bot_id b' e,
     active_bots (bot_manager st) !! p = Some bot_id -> bot_id <> 0%Z ->
     get_bot_stats bot_id (bot_manager st) = (Raise e, b') ->
     log (snd (log_status p md a st)) = log st ++ [ErrorLoggingStatus e]).
Proof.
  unfold log_status, try_exceptM. unfold mbind at 1 3 5, M_bind at 1 3 5.
  rewrite lookup_bot_spec.
  split; [|split].
  - destruct (active_bots (bot_manager st) !! p) as [b|]; [|reflexivity].
    destruct (Z.eqb b 0); [reflexivity|].
    unfold on_bot_manager, zoom, mbind, M_bind, logger, modify, lift.
    destruct (get_bot_stats b (bot_manager st)) as [[[stats|]|e] b']; reflexivity.
  - intros bot_id b' Hb Hnz Hs. rewrite Hb. apply Z.eqb_neq in Hnz. rewrite Hnz.
    unfold on_bot_manager, zoom, mbind, M_bind, logger, modify, lift.
    rewrite Hs. reflexivity.
  - intros bot_id b' e Hb Hnz Hs. rewrite Hb. apply Z.eqb_neq in Hnz. rewrite Hnz.
    unfold on_bot_manager, zoom, mbind, M_bind, logger, modify, lift.
    rewrite Hs. reflexivity.
Qed.

(** X26. A pair without a bot, or whose bot has the id 0, is skipped with
    a warning: the registry is not called and keeps its state. *)
Theorem pair_without_bot_is_skipped (p : string) (st : TradingBot.State S)
    (md : MarketSnapshot) (cache' : gmap string MarketSnapshot)
    (a : gmap string pyval) :
  get_market_data (source env) p (cached_data st) = (Ok (Some md), cache') ->
  analyze_market env md = Ok (Some a) -> a <> ∅ ->
  active_bots (bot_manager st) !! p = None \/
  active_bots (bot_manager st) !! p = Some 0%Z ->
  process_trading_pair env p st
  = (Ok tt, {| cached_data := cache'; bot_manager := bot_manager st;
               log := log st ++ [WarnNoBot p] |}).
Proof.
  intros Hmd Han Hne Hbot.
  unfold process_trading_pair, try_exceptM, on_market_data, zoom, lift.
  unfold mbind at 1, M_bind at 1. rewrite Hmd.
  unfold mbind at 1, M_bind at 1. rewrite Han.
  unfold usable_analysis. rewrite decide_False by assumption.
  unfold mbind at 1, M_bind at 1. rewrite lookup_bot_spec.
  cbn [bot_manager]. destruct Hbot as [-> | ->]; reflexivity.
Qed.

(** X27. When the registry declines a recommendation (it returns
    [False]), the orchestrator stops at that pair: it writes none of its
    own records, neither the update line nor a status record, and does not
    ask the registry for statistics, whose state stays as the call left
    it. *)
Theorem declined_recommendation_skips_status (p : string) (st : TradingBot.State S)
    (md : MarketSnapshot) (cache' : gmap string MarketSnapshot)
    (a : gmap string pyval) (bot_id : Z) (b1 : S) :
  get_market_data (source env) p (cached_data st) = (Ok (Some md), cache') ->
  analyze_market env md = Ok (Some a) -> a <> ∅ ->
  active_bots (bot_manager st) !! p = Some bot_id -> bot_id <> 0%Z ->
  apply_ai_recommendations bot_id a (bot_manager st) = (Ok false, b1) ->
  process_trading_pair env p st
  = (Ok tt, {| cached_data := cache'; bot_manager := b1; log := log st |}).
Proof.
  intros Hmd Han Hne Hbot Hnz Happ. apply Z.eqb_neq in Hnz.
  unfold process_trading_pair, try_exceptM, on_market_data, zoom, lift.
  unfold mbind at 1, M_bind at 1. rewrite Hmd.
  unfold mbind at 1, M_bind at 1. rewrite Han.
  unfold usable_analysis. rewrite decide_False by assumption.
  unfold mbind at 1, M_bind at 1. rewrite lookup_bot_spec.
  cbn [bot_manager]. rewrite Hbot, Hnz.
  unfold on_bot_manager, zoom, mbind, M_bind. cbn [bot_manager cached_data log].
  rewrite Happ. reflexivity.
Qed.

(** X28. The analysis endpoint never raises.  When the snapshot is
    fetched and the analysis collaborator raises, the body is the error
    text and the fetched snapshot stays in the cache; an absent or empty
    analysis gives the body "No analysis available". *)
Theorem api_get_ai_analysis_reports_errors (cache : gmap string MarketSnapshot) :
  (exists body cache', api_get_ai_analysis env cache = (Ok body, cache')) /\
  (forall md,
     fetch_snapshot (source env) "BTCUSDT" = Ok md ->
     (forall e, analyze_market env md = Raise e ->
        api_get_ai_analysis env cache
        = (Ok (inr (exn_str e)), <["BTCUSDT" := md]> cache)) /\
     (analyze_market env md = Ok None \/ analyze_market env md = Ok (Some ∅) ->
        api_get_ai_analysis env cache
        = (Ok (inr "No analysis available"), <["BTCUSDT" := md]> cache))).
Proof.
  split.
  - unfold api_get_ai_analysis, try_exceptM. unfold mbind at 1, M_bind at 1.
    destruct (MarketDataExtras.get_market_data_total (source env) "BTCUSDT" cache)
      as (r & c' & Hr). rewrite Hr.
    destruct r as [md|]; [|do 2 eexists; reflexivity].
    unfold lift, mbind, M_bind.
    destruct (analyze_market env md) as [an|e]; [|do 2 eexists; reflexivity].
    destruct (usable_analysis an); do 2 eexists; reflexivity.
  - intros md Hmd.
    assert (Hget : get_market_data (source env) "BTCUSDT" cache
                   = (Ok (Some md), <["BTCUSDT" := md]> cache)).
    { unfold get_market_data, try_exceptM, lift, modify, mbind, M_bind.
      now rewrite Hmd. }
    unfold api_get_ai_analysis, try_exceptM. unfold mbind at 1 3, M_bind at 1 3.
    rewrite Hget. unfold lift, mbind, M_bind. split.
    + intros e He. now rewrite He.
    + intros [H|H]; rewrite H; [reflexivity|].
      unfold usable_analysis. now rewrite decide_True.
Qed.

End Pairs.

Lemma log_status_contains_missing_stats_witness :
  active_bots (BaseBotManager := MoreExamples.declining_registry)
    (bot_manager MoreExamples.declining_state) !! "BTCUSDT" = Some 7%Z /\
  get_bot_stats (BaseBotManager := MoreExamples.declining_registry) 7%Z
    (bot_manager MoreExamples.declining_state)
    = (Ok None, bot_manager MoreExamples.declining_state) /\
  log (snd (log_status (BaseBotManager0 := MoreExamples.declining_registry)
              "BTCUSDT" MoreExamples.btc_snapshot MoreExamples.trade_recommendation
              MoreExamples.declining_state))
  = [ErrorLoggingStatus AttributeError].
Proof.
  assert (H1 : active_bots (BaseBotManager := MoreExamples.declining_registry)
                 (bot_manager MoreExamples.declining_state) !! "BTCUSDT" = Some 7%Z)
    by (vm_compute; reflexivity).
  split; [exact H1|]. split; [reflexivity|].
  destruct (log_status_contains_missing_stats
              (BaseBotManager0 := MoreExamples.declining_registry)
              "BTCUSDT" MoreExamples.btc_snapshot MoreExamples.trade_recommendation
              MoreExamples.declining_state) as (_ & Hnone & _).
  exact (Hnone 7%Z _ H1 ltac:(discriminate) eq_refl).
Defined.

Lemma pair_without_bot_is_skipped_witness :
  get_market_data (source MoreExamples.trading) "BTCUSDT" ∅
    = (Ok (Some MoreExamples.btc_snapshot), {["BTCUSDT" := MoreExamples.btc_snapshot]}) /\
  active_bots (bot_manager MoreExamples.fresh_mock) !! "BTCUSDT" = None /\
  process_trading_pair MoreExamples.trading "BTCUSDT" MoreExamples.fresh_mock
  = (Ok tt, {| cached_data := {["BTCUSDT" := MoreExamples.btc_snapshot]};
               bot_manager := mock_init;
               log := [WarnNoBot "BTCUSDT"] |}).
Proof.
  assert (H1 : get_market_data (source MoreExamples.trading) "BTCUSDT" ∅
               = (Ok (Some MoreExamples.btc_snapshot),
                  {["BTCUSDT" := MoreExamples.btc_snapshot]}))
    by (vm_compute; reflexivity).
  split; [exact H1|]. split; [reflexivity|].
  apply (pair_without_bot_is_skipped MoreExamples.trading "BTCUSDT"
           MoreExamples.fresh_mock MoreExamples.btc_snapshot _
           MoreExamples.trade_recommendation H1 eq_refl).
  - intros H. apply (f_equal (fun m => m !! "stop_loss")) in H.
    vm_compute in H. discriminate H.
  - left. reflexivity.
Defined.

Lemma declined_recommendation_skips_status_witness :
  apply_ai_recommendations (BaseBotManager := MoreExamples.declining_registry) 7%Z
    MoreExamples.trade_recommendation (bot_manager MoreExamples.declining_state)
    = (Ok false, bot_manager MoreExamples.declining_state) /\
  log (snd (process_trading_pair (BaseBotManager0 := MoreExamples.declining_registry)
              MoreExamples.trading "BTCUSDT" MoreExamples.declining_state)) = [].
Proof.
  split; [reflexivity|].
  rewrite (declined_recommendation_skips_status
             (BaseBotManager0 := MoreExamples.declining_registry)
             MoreExamples.trading "BTCUSDT" MoreExamples.declining_state
             MoreExamples.btc_snapshot {["BTCUSDT" := MoreExamples.btc_snapshot]}
             MoreExamples.trade_recommendation 7%Z
             (bot_manager MoreExamples.declining_state)).
  - reflexivity.
  - vm_compute. reflexivity.
  - reflexivity.
  - intros H. apply (f_equal (fun m => m !! "stop_loss")) in H.
    vm_compute in H. discriminate H.
  - vm_compute. reflexivity.
  - discriminate.
  - reflexivity.
Defined.

Lemma api_get_ai_analysis_reports_errors_witness :
  fetch_snapshot (source MoreExamples.failing_analyzer) "BTCUSDT"
    = Ok MoreExamples.btc_snapshot /\
  api_get_ai_analysis MoreExamples.failing_analyzer ∅
  = (Ok (inr "rate limit"), {["BTCUSDT" := MoreExamples.btc_snapshot]}).
Proof.
  assert (H : fetch_snapshot (source MoreExamples.failing_analyzer) "BTCUSDT"
              = Ok MoreExamples.btc_snapshot) by (vm_compute; reflexivity).
  split; [exact H|].
  destruct (api_get_ai_analysis_reports_errors MoreExamples.failing_analyzer ∅)
    as (_ & Hmd).
  destruct (Hmd _ H) as (Hraise & _).
  exact (Hraise (ExternalError "rate limit") eq_refl).
Defined.

Section MockSetup.
Variable env : Env.

Lemma create_and_log (p : string) (st : TradingBot.State MockBotManager) :
  (bot ← on_bot_manager (create_bot p);
   match bot with
   | Some b => logger (InfoCreatedBot p (id b))
   | None => logger (ErrorCreateBot p)
   end) st
  = (Ok tt,
     {| cached_data := cached_data st;
        bot_manager :=
          {| mock_active_bots := <[p := next_bot_id (bot_manager st)]>
                                   (mock_active_bots (bot_manager st));
             mock_trades := mock_trades (bot_manager st);
             next_bot_id := (next_bot_id (bot_manager st) + 1)%Z |};
        log := log st ++ [InfoCreatedBot p (next_bot_id (bot_manager st))] |}).
Proof. reflexivity. Qed.

Lemma create_all (pairs : list string) (st : TradingBot.State MockBotManager) :
  exists st',
    for_each pairs
      (fun p =>
         bot ← on_bot_manager (create_bot p);
         match bot with
         | Some b => logger (InfoCreatedBot p (id b))
         | None => logger (ErrorCreateBot p)
         end) st = (Ok tt, st') /\
    next_bot_id (bot_manager st')
      = (next_bot_id (bot_manager st) + Z.of_nat (length pairs))%Z /\
    (forall i p, pairs !! i = Some p -> p ∉ drop (Datatypes.S i) pairs ->
       active_bots (bot_manager st') !! p
       = Some (next_bot_id (bot_manager st) + Z.of_nat i)%Z) /\
    (forall p, p ∉ pairs ->
       active_bots (bot_manager st') !! p = active_bots (bot_manager st) !! p) /\
    mock_trades (bot_manager st') = mock_trades (bot_manager st) /\
    cached_data st' = cached_data st.
Proof.
  revert st. induction pairs as [|x pairs IH]; intros st.
  - exists st. split; [reflexivity|]. split; [cbn; lia|].
    split; [intros i p H; inversion H|]. repeat split; reflexivity.
  - cbn [for_each]. unfold mbind at 1, M_bind at 1. rewrite create_and_log.
    match goal with |- context [for_each pairs _ ?s] => set (st1 := s) end.
    destruct (IH st1) as (st' & Hrun & Hnext & Hidx & Hout & Htr & Hc).
    exists st'. split; [exact Hrun|]. subst st1.
    cbn [bot_manager next_bot_id cached_data mock_trades active_bots
         mock_bot_manager mock_active_bots] in *.
    split; [rewrite Hnext; cbn [length]; lia|].
    split; [|split; [|split; assumption]].
    + intros [|i] p Hp Hnot.
      * cbn in Hp. inversion Hp; subst. cbn [drop] in Hnot.
        rewrite (Hout _ Hnot), lookup_insert_eq. f_equal. lia.
      * cbn in Hp. cbn [drop] in Hnot. rewrite (Hidx i p Hp Hnot). f_equal. lia.
    + intros p Hp. apply not_elem_of_cons in Hp as [Hne Hp].
      rewrite (Hout _ Hp). now rewrite lookup_insert_ne.
Qed.

(** X29. On the mock registry, [setup] over distinct pairs never raises
    and gives the pair at position [i] the id [next_bot_id + i]; the trade
    histories and the snapshot cache are untouched.  The ids count up from
    a positive number, so every configured pair is later found to have a
    bot. *)
Theorem setup_gives_every_pair_a_bot (st : TradingBot.State MockBotManager) :
  NoDup (TRADING_PAIRS env) ->
  exists st',
    setup_bots env st = (Ok tt, st') /\
    (forall i p, TRADING_PAIRS env !! i = Some p ->
       active_bots (bot_manager st') !! p
       = Some (next_bot_id (bot_manager st) + Z.of_nat i)%Z) /\
    (forall p, p ∈ TRADING_PAIRS env -> (0 < next_bot_id (bot_manager st))%Z ->
       exists bot_id, fst (lookup_bot p st') = Ok (Some bot_id)) /\
    mock_trades (bot_manager st') = mock_trades (bot_manager st) /\
    cached_data st' = cached_data st.
Proof.
  intros Hnd.
  destruct (create_all (TRADING_PAIRS env) st) as (st' & Hrun & _ & Hidx & _ & Htr & Hc).
  assert (Hpos : forall i p, TRADING_PAIRS env !! i = Some p ->
            active_bots (bot_manager st') !! p
            = Some (next_bot_id (bot_manager st) + Z.of_nat i)%Z).
  { intros i p Hp. apply Hidx; [assumption|]. intros Hin.
    apply list_elem_of_lookup in Hin as [j Hj]. rewrite lookup_drop in Hj.
    pose proof (NoDup_lookup _ _ _ _ Hnd Hp Hj). lia. }
  exists st'. unfold setup_bots, try_exceptM. rewrite Hrun.
  split; [reflexivity|]. split; [exact Hpos|]. split; [|split; assumption].
  intros p Hin Hbase. apply list_elem_of_lookup in Hin as [i Hi].
  rewrite lookup_bot_spec, (Hpos i p Hi). cbn [fst].
  destruct (Z.eqb_spec (next_bot_id (bot_manager st) + Z.of_nat i) 0) as [E|_]; [lia|].
  eexists. reflexivity.
Qed.

End MockSetup.

Lemma setup_gives_every_pair_a_bot_witness :
  NoDup (TRADING_PAIRS MoreExamples.trading) /\
  exists st',
    setup_bots MoreExamples.trading MoreExamples.fresh_mock = (Ok tt, st') /\
    active_bots (bot_manager st') !! "ETHUSDT" = Some 1001%Z.
Proof.
  assert (Hnd : NoDup (TRADING_PAIRS MoreExamples.trading)).
  { apply NoDup_cons. split; [|apply NoDup_singleton].
    intros H. apply list_elem_of_singleton in H. discriminate H. }
  split; [exact Hnd|].
  destruct (setup_gives_every_pair_a_bot MoreExamples.trading MoreExamples.fresh_mock Hnd)
    as (st' & Hrun & Hidx & _).
  exists st'. split; [exact Hrun|]. exact (Hidx 1%nat "ETHUSDT" eq_refl).
Defined.

End TradingBotExtras.
